(** * application-bot: the Streamlit page [01_Home.py]

    The page script [main] is embedded as a state-and-exception
    computation over a [World]: the Streamlit session state, the cached
    resources (the [InfoLoader] and the [VectorDB] objects), the handlers
    of the root logger, and the trace of what one run of the script shows,
    logs and calls.  The two collaborator classes live in [modules/], which
    is not part of the page: the script is embedded against their
    interfaces, and a second part of the file gives the two classes as the
    specification describes them. *)

From Stdlib Require Import String Ascii List ZArith QArith Bool Lia.
From Stdlib Require Import DecimalString.
Import ListNotations.

Local Open Scope string_scope.
Local Open Scope list_scope.

(** ** Python values the page handles *)

(** The carriage of a Python [Exception].  The names are the ones of the
    error taxonomy of the specification; [OtherException] is any other
    subclass of [Exception] (a [KeyError], an [AttributeError], ...). *)
Inductive exn : Type :=
| UnsupportedFormat (file : string)
| ExtractionError (file : string)
| AuthenticationError
| RateLimitError
| GenerationError
| IndexMismatchError
| InvalidParameter
| NotReady
| OtherException (what : string).

(** What a call does: it returns a value or raises. *)
Inductive outcome (A : Type) : Type :=
| Returned (a : A)
| Raised (e : exn).
Arguments Returned {A} a.
Arguments Raised {A} e.

(** A file as the upload widget hands it over. *)
Record UploadedFile : Type := mkFile {
  name : string;
  content : string
}.

(** A chunk of a document (a LangChain document in the page's commented-out
    display code: [page_content], [metadata['source']], [metadata['page']]). *)
Record Segment : Type := mkSegment {
  document_id : string;
  sequence_index : nat;
  page_content : string;
  page : option nat
}.

(** What [get_response] returns when it returns something truthy: the page
    reads [result["result"]]; [source_documents] is only read by code that is
    commented out. *)
Record Response : Type := mkResponse {
  result : string;
  source_documents : list Segment
}.

(** [config.yml] after [yaml.safe_load]; the page reads the key [local]. *)
Record Config : Type := mkConfig {
  local : bool
}.

(** [st.secrets]. *)
Record Secrets : Type := mkSecrets {
  apikey : string;
  password : string
}.

(** What the host provides to every run of the script. *)
Record Environment : Type := mkEnvironment {
  config_yml : Config;
  secrets : Secrets
}.

(** ** Strings *)

Definition newline : string := String (ascii_of_nat 10) EmptyString.

(** [str(n)] for an [int]. *)
Definition str (z : Z) : string := NilZero.string_of_int (Z.to_int z).

(** [s.startswith(p)]. *)
Definition startswith (s p : string) : bool := String.prefix p s.

(** [s.endswith(p)]. *)
Fixpoint endswith (s p : string) : bool :=
  (s =? p) ||
  match s with
  | EmptyString => false
  | String _ s' => endswith s' p
  end.

Definition lower_ascii (c : ascii) : ascii :=
  let n := nat_of_ascii c in
  if (65 <=? n)%nat && (n <=? 90)%nat then ascii_of_nat (n + 32) else c.

(** [s.lower()] on ASCII letters. *)
Fixpoint lower (s : string) : string :=
  match s with
  | EmptyString => EmptyString
  | String c s' => String (lower_ascii c) (lower s')
  end.

(** ** The interfaces of the two collaborators

    A method of a Python object can change the object and then raise: a
    method maps the object to an outcome and the object after the call.
    The attributes the page reads ([document_chunks_full],
    [document_names]) are there from the constructor on.  The two objects
    are separate values: a list that the page passes from the loader to
    the database is passed by value. *)

Module InfoLoader.
Class t (L : Type) : Type := {
  new : Config -> L;
  get_chunks : list UploadedFile -> L -> outcome unit * L;
  document_chunks_full : L -> list Segment;
  document_names : L -> list string
}.
End InfoLoader.

Module VectorDB.
Class t (V : Type) : Type := {
  new : Config -> V;
  create_embedding_function : string -> V -> outcome unit * V;
  initialize_database : list Segment -> list string -> V -> outcome unit * V;
  document_names : V -> list string;
  create_llm : string -> Q -> V -> outcome unit * V;
  create_chain : string -> string -> V -> outcome unit * V;
  (** [None] is a falsy return value ([None], an empty dict). *)
  get_response : string -> V -> outcome (option Response) * V
}.
End VectorDB.

(** ** The trace of a run *)

(** A call of a collaborator's method, with its arguments. *)
Inductive Call : Type :=
| GetChunks (files : list UploadedFile)
| CreateEmbeddingFunction (api_key : string)
| InitializeDatabase (chunks : list Segment) (names : list string)
| CreateLlm (api_key : string) (temperature : Q)
| CreateChain (prompt_mode source : string)
| GetResponse (question : string).

(** The value interpolated into a log line. *)
Inductive LogValue : Type :=
| NoValue
| IntValue (z : Z)
| NamesValue (names : list string).

Inductive Entry : Type :=
| SetPageConfig (page_title : string)
| StWrite (text : string)
| StInfo (text : string)
| StWarning (text : string)
| StError (text : string)
| StMarkdown (text : string)
| StStatus (label : string)
| StatusUpdate (label state : string)
| StSpinner (text : string)
| LogError (text : string) (exc_info : exn)
| LogInfo (text : string) (value : LogValue)
| Invoke (c : Call).

(** ** The state of the host process and of one session *)

(** [st.session_state]: a key is absent until [initialize_session_state]
    sets it. *)
Record SessionState : Type := mkSessionState {
  config : option Config;
  usage_counter : option Z;
  openai_api_key_host : option string
}.

Inductive Handler : Type :=
| FileHandler (file_path : string)
| StreamHandler.

Record World (L V : Type) : Type := mkWorld {
  session_state : SessionState;
  (** [logging.getLogger().handlers] *)
  handlers : list Handler;
  (** the cache of [get_resources] *)
  resources : option (L * V);
  trace : list Entry
}.
Arguments mkWorld {L V}.
Arguments session_state {L V}.
Arguments handlers {L V}.
Arguments resources {L V}.
Arguments trace {L V}.

(** The widgets' values in one run of the script: what the user typed,
    picked and pressed.  A text area left alone has its default [value]. *)
Record Interaction : Type := mkInteraction {
  password_typed : string;
  files_picked : list UploadedFile;
  upload_pressed : bool;
  slider_pick : option nat;
  instructions_typed : option string;
  information_typed : option string;
  prompt_typed : option string;
  submit_pressed : bool
}.

(** ** Widgets *)

(** [st.text_area(label, value=...)] and [st.text_input(label)]. *)
Definition text_area (value : string) (typed : option string) : string :=
  match typed with
  | Some s => s
  | None => value
  end.

(** The file name ends with [.ext], letter case apart. *)
Definition has_extension (ext : string) (f : UploadedFile) : bool :=
  endswith (lower (name f)) ("." ++ lower ext).

(** [st.file_uploader(type=..., accept_multiple_files=True)]: the widget
    takes the picked files whose extension is one of [type] and refuses
    the others. *)
Definition file_uploader (type : list string) (picked : list UploadedFile)
  : list UploadedFile :=
  filter (fun f => existsb (fun ext => has_extension ext f) type) picked.

(** [range(a, b)]. *)
Definition range (a b : nat) : list nat := seq a (b - a).

(** [st.select_slider(options=..., value=...)]: the option at the picked
    position, [value] while the slider is left alone. *)
Definition select_slider (options : list Q) (value : Q) (pick : option nat) : Q :=
  match pick with
  | Some n => nth n options value
  | None => value
  end.

(** [[x / 10 for x in range(0, 21)]]; the Python floats are read as the
    rationals they are written as. *)
Definition slider_options : list Q :=
  map (fun x => Z.of_nat x # 10) (range 0 21).

(** A Python list is truthy when it is not empty. *)
Definition truthy {A : Type} (l : list A) : bool :=
  match l with
  | [] => false
  | _ :: _ => true
  end.

(** ** The script monad *)

Section Page.

Context {L V : Type} {IL : InfoLoader.t L} {VD : VectorDB.t V}.
Variable env : Environment.

Definition Script (A : Type) : Type := World L V -> outcome A * World L V.

Definition ret {A : Type} (a : A) : Script A := fun w => (Returned a, w).

Definition bind {A B : Type} (m : Script A) (k : A -> Script B) : Script B :=
  fun w =>
    match m w with
    | (Returned a, w') => k a w'
    | (Raised e, w') => (Raised e, w')
    end.

(** [try: body / except Exception: handler / else: orelse]. *)
Definition try_except_else {A B : Type}
    (body : Script A) (handler : exn -> Script B) (orelse : A -> Script B)
  : Script B :=
  fun w =>
    match body w with
    | (Returned a, w') => orelse a w'
    | (Raised e, w') => handler e w'
    end.

Declare Scope script_scope.
Delimit Scope script_scope with script.
Notation "x <- m ;; k" := (bind m (fun x => k))
  (at level 61, m at next level, right associativity) : script_scope.
Notation "m ;; k" := (bind m (fun _ => k))
  (at level 61, right associativity) : script_scope.
Local Open Scope script_scope.

Definition when (b : bool) (m : Script unit) : Script unit :=
  if b then m else ret tt.

(** One more entry at the end of the trace. *)
Definition say (e : Entry) : Script unit :=
  fun w =>
    (Returned tt,
     mkWorld (session_state w) (handlers w) (resources w) (trace w ++ [e])).

(** [st.session_state.key]; an absent key raises. *)
Definition read_session {A : Type} (field : SessionState -> option A) : Script A :=
  fun w =>
    match field (session_state w) with
    | Some a => (Returned a, w)
    | None => (Raised (OtherException "AttributeError"), w)
    end.

Definition write_session (f : SessionState -> SessionState) : Script unit :=
  fun w =>
    (Returned tt, mkWorld (f (session_state w)) (handlers w) (resources w) (trace w)).

Definition set_config (c : Config) (s : SessionState) : SessionState :=
  mkSessionState (Some c) (usage_counter s) (openai_api_key_host s).

Definition set_usage_counter (n : Z) (s : SessionState) : SessionState :=
  mkSessionState (config s) (Some n) (openai_api_key_host s).

Definition set_openai_api_key_host (k : string) (s : SessionState) : SessionState :=
  mkSessionState (config s) (usage_counter s) (Some k).

(** A method call on the cached loader: [loader] is the object that
    [get_resources] returned, shared by every run. *)
Definition on_loader {A : Type} (m : L -> outcome A * L) : Script A :=
  fun w =>
    match resources w with
    | Some (l, v) =>
        let (r, l') := m l in
        (r, mkWorld (session_state w) (handlers w) (Some (l', v)) (trace w))
    | None => (Raised (OtherException "NameError"), w)
    end.

(** A method call on the cached vector database. *)
Definition on_vector_db {A : Type} (m : V -> outcome A * V) : Script A :=
  fun w =>
    match resources w with
    | Some (l, v) =>
        let (r, v') := m v in
        (r, mkWorld (session_state w) (handlers w) (Some (l, v')) (trace w))
    | None => (Raised (OtherException "NameError"), w)
    end.

(** Reading an attribute of an object. *)
Definition loader_attr {A : Type} (f : L -> A) : Script A :=
  on_loader (fun l => (Returned (f l), l)).

Definition vector_db_attr {A : Type} (f : V -> A) : Script A :=
  on_vector_db (fun v => (Returned (f v), v)).

(** A call of a collaborator: the call is traced, then made. *)
Definition call_loader {A : Type} (c : Call) (m : L -> outcome A * L) : Script A :=
  say (Invoke c);; on_loader m.

Definition call_vector_db {A : Type} (c : Call) (m : V -> outcome A * V) : Script A :=
  say (Invoke c);; on_vector_db m.

(** ** The functions of the page *)

(** [logger.addHandler(h)] on the root logger. *)
Definition add_handler (h : Handler) : Script unit :=
  fun w =>
    (Returned tt,
     mkWorld (session_state w) (handlers w ++ [h]) (resources w) (trace w)).

(** [configure_logging]: [st.cache_resource] runs the body once per
    arguments; a later run of the body finds a handler and adds none. *)
Definition configure_logging (file_path : option string) (streaming : bool)
  : Script unit :=
  fun w =>
    match handlers w with
    | [] =>
        ((match file_path with
          | Some p =>
              add_handler (FileHandler p);;
              say (LogInfo "Added filer_handler" NoValue)
          | None => ret tt
          end);;
         when streaming
           (add_handler StreamHandler;;
            say (LogInfo "Added stream_handler" NoValue))) w
    | _ :: _ => ret tt w
    end.

Definition initialize_session_state : Script unit :=
  write_session (fun s =>
    match config s with
    | None => set_config (config_yml env) s
    | Some _ => s
    end);;
  write_session (fun s =>
    match usage_counter s with
    | None => set_usage_counter 0 s
    | Some _ => s
    end);;
  write_session (set_openai_api_key_host (apikey (secrets env))).

(** [get_resources]: the two objects are made once and cached. *)
Definition get_resources : Script unit :=
  cfg <- read_session config;;
  fun w =>
    match resources w with
    | Some _ => ret tt w
    | None =>
        ret tt (mkWorld (session_state w) (handlers w)
                  (Some (InfoLoader.new cfg, VectorDB.new cfg)) (trace w))
    end.

(** The body of the [try] of the upload: chunk, bind the embedding
    provider, rebuild the database. *)
Definition ingest (openai_api_key : string) (uploaded_files : list UploadedFile)
  : Script unit :=
  say (StWrite "Dokumente werden verarbeitet...");;
  call_loader (GetChunks uploaded_files) (InfoLoader.get_chunks uploaded_files);;
  say (StWrite "Embeddings werden erstellt...");;
  call_vector_db (CreateEmbeddingFunction openai_api_key)
    (VectorDB.create_embedding_function openai_api_key);;
  chunks <- loader_attr InfoLoader.document_chunks_full;;
  names <- loader_attr InfoLoader.document_names;;
  call_vector_db (InitializeDatabase chunks names)
    (VectorDB.initialize_database chunks names).

(** The [else] of the upload: the usage counter and the report. *)
Definition ingested (openai_api_key : string) : Script unit :=
  host <- read_session openai_api_key_host;;
  when (openai_api_key =? host)
    (n <- read_session usage_counter;;
     names <- loader_attr InfoLoader.document_names;;
     write_session (set_usage_counter (n + Z.of_nat (length names)));;
     n' <- read_session usage_counter;;
     say (LogInfo "Current usage counter: " (IntValue n')));;
  names <- loader_attr InfoLoader.document_names;;
  say (LogInfo "Erfolgreich hochgeladen: " (NamesValue names));;
  say (StatusUpdate "Embedding vollständig!" "complete").

(** The block under [if st.button('Hochladen') and ...]. *)
Definition upload (openai_api_key : string) (uploaded_files : list UploadedFile)
  : Script unit :=
  say (StStatus "Lade hoch (das kann einen Moment dauern)...)");;
  try_except_else
    (ingest openai_api_key uploaded_files)
    (fun e =>
       say (LogError "Exception during Splitting / embedding" e);;
       say (StatusUpdate "Error occured." "error"))
    (fun _ => ingested openai_api_key).

(** The text of the info bar: [enumerate] counts from 0. *)
Fixpoint doc_name_lines (doc_count : nat) (names : list string) : string :=
  match names with
  | [] => ""
  | doc_name :: rest =>
      str (Z.of_nat doc_count + 1) ++ ". " ++ doc_name ++ newline ++ newline
        ++ doc_name_lines (S doc_count) rest
  end.

Definition doc_name_display (names : list string) : string :=
  if truthy names then doc_name_lines 0 names
  else "Noch keine Dokumente hochgeladen!".

(** The question sent to the chain. *)
Definition question (user_instructions user_information user_input : string)
  : string :=
  user_instructions ++ " " ++ user_information ++ " " ++ user_input.

(** The [try] under the submit button; [result] is [None] in the handler. *)
Definition query (openai_api_key : string) (temperature : Q)
    (prompt_mode source : string)
    (user_instructions user_information user_input : string)
  : Script (option Response) :=
  try_except_else
    (call_vector_db (CreateLlm openai_api_key temperature)
       (VectorDB.create_llm openai_api_key temperature);;
     call_vector_db (CreateChain prompt_mode source)
       (VectorDB.create_chain prompt_mode source);;
     call_vector_db
       (GetResponse (question user_instructions user_information user_input))
       (VectorDB.get_response
          (question user_instructions user_information user_input)))
    (fun e =>
       say (LogError "Exception during Querying" e);;
       say (StError "Error occured, unable to process response!");;
       ret None)
    (fun result => ret result).

(** [if result:] and the display of the answer. *)
Definition display (r : option Response) : Script unit :=
  match r with
  | Some answer =>
      say (StInfo "Anschreiben:");;
      say (StInfo (result answer))
  | None => ret tt
  end.

Definition instructions_value : string :=
  "Du bist ein Bewerbungs-Assistent und erstellst auf Basis der Stellenausschreibung ein Anschreiben.".

Definition information_value : string :=
  "- Ich habe 20 Jahre Berufserfahrung  " ++ newline
  ++ " - Ich heiße Max Mustermann " ++ newline
  ++ " - Der Ansprechpartner für die Stelle ist Maxim Mustermensch".

Definition prompt_value : string := "Erstelle mir ein Anschreiben.".

(** The sidebar: the password, the uploader, the upload, the slider. *)
Definition sidebar (i : Interaction) : Script (string * Q) :=
  openai_api_key <- read_session openai_api_key_host;;
  let password_entered := password_typed i in
  let uploaded_files :=
    file_uploader ["pdf"; "txt"; "docx"; "srt"] (files_picked i) in
  when (upload_pressed i && truthy uploaded_files
        && (password_entered =? password (secrets env)))
    (upload openai_api_key uploaded_files);;
  let temperature := select_slider slider_options 1 (slider_pick i) in
  ret (openai_api_key, temperature).

(** The info bar of the main page. *)
Definition info_bar (openai_api_key : string) : Script unit :=
  names <- vector_db_attr VectorDB.document_names;;
  say (StInfo ("Hochgeladene Dokumente: " ++ newline ++ newline ++ " "
               ++ doc_name_display names));;
  when (negb (startswith openai_api_key "sk-") || (openai_api_key =? "NA"))
    (say (StWrite "Enter your API key on the sidebar to begin")).

(** The form: the three text areas, the warnings, the submission. *)
Definition form (i : Interaction) (openai_api_key : string) (temperature : Q)
  : Script unit :=
  let user_instructions := text_area instructions_value (instructions_typed i) in
  let user_information := text_area information_value (information_typed i) in
  let user_input := text_area prompt_value (prompt_typed i) in
  let source := "Uploaded documents" in
  let prompt_mode := "Unrestricted" in
  when (negb (startswith openai_api_key "sk-"))
    (if openai_api_key =? "NA"
     then say (StWarning "Host key currently not available, please use your own OpenAI API key!")
     else say (StWarning "Please enter your OpenAI API key!"));;
  when (submit_pressed i && startswith openai_api_key "sk-")
    (say (StSpinner "Lade...");;
     r <- query openai_api_key temperature prompt_mode source
            user_instructions user_information user_input;;
     display r).

(** The head of [main]: the configuration, the logger, the two objects. *)
Definition load : Script unit :=
  say (SetPageConfig "Bewerbungsbot ");;
  initialize_session_state;;
  cfg <- read_session config;;
  (if local cfg then configure_logging (Some "app.log") false
   else configure_logging None true);;
  get_resources.

Definition main (i : Interaction) : Script unit :=
  load;;
  side <- sidebar i;;
  say (StMarkdown "## :rocket: Willkommen zu deinem Bewerbungs-Assistenten");;
  info_bar (fst side);;
  form i (fst side) (snd side).

(** Streamlit runs the script from the top at every interaction and draws
    the page anew: the trace of a run starts empty. *)
Definition script_run (i : Interaction) (w : World L V) : World L V :=
  snd (main i (mkWorld (session_state w) (handlers w) (resources w) [])).

End Page.

(** * The collaborators as the specification describes them

    [modules/InfoLoader.py] and [modules/VectorDB.py] are not part of the
    page.  The definitions of this module follow the contracts of the
    Chunker, the Embedding Index, the Retrieval Chain and the Generation
    Client of the specification. *)

Module Pipeline.

Inductive Format : Type := Pdf | Txt | Docx | Srt.

(** Modelled from the spec: the format a file declares is its extension,
  one of the four of the Chunker (InfoLoader's dispatch is missing). *)
Definition declared_format (f : UploadedFile) : option Format :=
if has_extension "pdf" f then Some Pdf
else if has_extension "txt" f then Some Txt
else if has_extension "docx" f then Some Docx
else if has_extension "srt" f then Some Srt
else None.

(** The ids of a sequence, each once, in the order of first occurrence. *)
Fixpoint unique (ids : list string) : list string :=
match ids with
| [] => []
| x :: rest => x :: filter (fun y => negb (y =? x)) (unique rest)
end.

Section Chunker.

(** The text extractor of a format; [None] on input it cannot read. *)
Variable extract : Format -> string -> option string.
(** The splitter: bounded size, overlap, deterministic. *)
Variable split : string -> list string.

(** Modelled from the spec: the state of the Chunker (the class
    InfoLoader is missing): the segments and the document names of the
    last batch, and the side list of the files that failed. *)
Record Loader : Type := mkLoader {
  document_chunks_full : list Segment;
  document_names : list string;
  failed : list exn
}.

Fixpoint segments_from (document : string) (index : nat) (texts : list string)
  : list Segment :=
  match texts with
  | [] => []
  | text :: rest =>
      mkSegment document index text None
        :: segments_from document (S index) rest
  end.

(** Modelled from the spec: one file through the Chunker (InfoLoader's
    per-file work is missing): dispatch on the declared format, extract,
    split; a segment's text is never empty. *)
Definition chunk_file (f : UploadedFile) : exn + list Segment :=
  match declared_format f with
  | None => inl (UnsupportedFormat (name f))
  | Some format =>
      match extract format (content f) with
      | None => inl (ExtractionError (name f))
      | Some text =>
          inr (segments_from (name f) 0
                 (filter (fun s => negb (s =? "")) (split text)))
      end
  end.

(** Modelled from the spec: [chunk] (InfoLoader.get_chunks is missing):
    the segments and the names of the files that were read, and the
    failures of the others as a side list; one failure does not stop the
    batch. *)
Fixpoint chunk (files : list UploadedFile)
  : list Segment * list string * list exn :=
  match files with
  | [] => ([], [], [])
  | f :: rest =>
      let '(segments, names, failures) := chunk rest in
      match chunk_file f with
      | inr s => (s ++ segments, name f :: names, failures)
      | inl e => (segments, names, e :: failures)
      end
  end.

Definition chunk_names (files : list UploadedFile) : list string :=
  unique (snd (fst (chunk files))).

Definition get_chunks (files : list UploadedFile) (l : Loader)
  : outcome unit * Loader :=
  let '(segments, names, failures) := chunk files in
  (Returned tt, mkLoader segments (unique names) failures).

Definition loader : InfoLoader.t Loader := {|
  InfoLoader.new := fun _ => mkLoader [] [] [];
  InfoLoader.get_chunks := get_chunks;
  InfoLoader.document_chunks_full := document_chunks_full;
  InfoLoader.document_names := document_names
|}.

End Chunker.

Section Index.

(** The embedding and generation provider accepts the key. *)
Variable key_accepted : string -> bool.
(** The similarity of the embeddings of a query and of a segment's text. *)
Variable similarity : string -> string -> Q.
(** The remote language model: temperature and prompt to text. *)
Variable complete : Q -> string -> outcome string.
(** How many segments a query retrieves. *)
Variable k : nat.

(** Modelled from the spec: the state of the Embedding Index and of the
    query session (the class VectorDB is missing). *)
Record Store : Type := mkStore {
  embedding_function : option string;
  index : list Segment;
  names : list string;
  llm : option (string * Q);
  chain : option (string * string)
}.

(** Modelled from the spec: [configure] (VectorDB.create_embedding_function
    is missing): binds the provider; the key is validated at first use. *)
Definition create_embedding_function (api_key : string) (s : Store)
  : outcome unit * Store :=
  (Returned tt, mkStore (Some api_key) (index s) (names s) (llm s) (chain s)).

(** Modelled from the spec: [initialize] (VectorDB.initialize_database is
    missing): clears the index and rebuilds it in full from the given
    segments, a replace and not a merge; on a failure the last index
    stays. *)
Definition initialize_database (segments : list Segment)
    (document_names : list string) (s : Store) : outcome unit * Store :=
  match embedding_function s with
  | None => (Raised (OtherException "AttributeError"), s)
  | Some api_key =>
      if key_accepted api_key
      then (Returned tt,
            mkStore (embedding_function s) segments document_names
              (llm s) (chain s))
      else (Raised AuthenticationError, s)
  end.

(** [x] goes behind every segment that scores at least as much. *)
Fixpoint place (score : Segment -> Q) (x : Segment) (ranked : list Segment)
  : list Segment :=
  match ranked with
  | [] => [x]
  | y :: rest =>
      if Qle_bool (score x) (score y) then y :: place score x rest
      else x :: y :: rest
  end.

(** Modelled from the spec: [search] (VectorDB's retriever is missing):
    the [k] nearest segments, by descending similarity, ties in the order
    of insertion. *)
Definition search (query_text : string) (s : Store) : list (Segment * Q) :=
  let score := fun x => similarity query_text (page_content x) in
  map (fun x => (x, score x))
    (firstn k (fold_left (fun ranked x => place score x ranked) (index s) [])).

Definition instruction (prompt_mode : string) : string :=
  if prompt_mode =? "Restricted"
  then "Answer from the context only; decline when the context is not sufficient."
  else "The context supports the answer; general knowledge may be used.".

(** Modelled from the spec: [retrieve_and_compose] (the chain of VectorDB
    is missing): the prompt of the mode, the cited segments, the
    question. *)
Definition compose (prompt_mode : string) (cited : list Segment)
    (question : string) : string :=
  instruction prompt_mode ++ newline
    ++ String.concat newline (map page_content cited) ++ newline ++ question.

Definition in_range (temperature : Q) : bool :=
  Qle_bool 0 temperature && Qle_bool temperature 2.

(** Modelled from the spec: the Generation Client is made with its
    temperature (VectorDB.create_llm is missing): a temperature outside
    [0.0, 2.0] fails with [InvalidParameter]. *)
Definition create_llm (api_key : string) (temperature : Q) (s : Store)
  : outcome unit * Store :=
  if in_range temperature
  then (Returned tt,
        mkStore (embedding_function s) (index s) (names s)
          (Some (api_key, temperature)) (chain s))
  else (Raised InvalidParameter, s).

(** Modelled from the spec: the Retrieval Chain is made with its mode and
    its scope (VectorDB.create_chain is missing). *)
Definition create_chain (prompt_mode source : string) (s : Store)
  : outcome unit * Store :=
  (Returned tt,
   mkStore (embedding_function s) (index s) (names s) (llm s)
     (Some (prompt_mode, source))).

(** Modelled from the spec: retrieval, then one call of the provider
    (VectorDB.get_response is missing); the index may be empty, and then
    nothing is cited. *)
Definition get_response (question : string) (s : Store)
  : outcome (option Response) * Store :=
  match llm s, chain s with
  | Some (api_key, temperature), Some (prompt_mode, _) =>
      let cited := map fst (search question s) in
      if key_accepted api_key then
        match complete temperature (compose prompt_mode cited question) with
        | Returned text => (Returned (Some (mkResponse text cited)), s)
        | Raised e => (Raised e, s)
        end
      else (Raised AuthenticationError, s)
  | _, _ => (Raised (OtherException "AttributeError"), s)
  end.

Definition vector_db : VectorDB.t Store := {|
  VectorDB.new := fun _ => mkStore None [] [] None None;
  VectorDB.create_embedding_function := create_embedding_function;
  VectorDB.initialize_database := initialize_database;
  VectorDB.document_names := names;
  VectorDB.create_llm := create_llm;
  VectorDB.create_chain := create_chain;
  VectorDB.get_response := get_response
|}.

End Index.

End Pipeline.

(** * What a run of the page does, as step relations

    The relations list the ways through the upload and through the query:
    the entries a run adds to the trace, and the objects and the usage
    counter after it. *)

Section Steps.

Context {L V : Type} {IL : InfoLoader.t L} {VD : VectorDB.t V}.
Variable env : Environment.

(** The usage counter of a session; a session that has none yet counts 0. *)
Definition counter (w : World L V) : Z :=
  match usage_counter (session_state w) with
  | Some n => n
  | None => 0%Z
  end.

Definition the_loader (w : World L V) : option L := option_map fst (resources w).
Definition the_vector_db (w : World L V) : option V := option_map snd (resources w).

(** The files that reach the page from the upload widget. *)
Definition uploaded_files (i : Interaction) : list UploadedFile :=
  file_uploader ["pdf"; "txt"; "docx"; "srt"] (files_picked i).

(** The condition of the upload: the button, a file, the password. *)
Definition upload_gate (i : Interaction) : bool :=
  upload_pressed i && truthy (uploaded_files i)
  && (password_typed i =? password (secrets env)).

(** The condition of the query: the button and a key of the provider. *)
Definition submit_gate (i : Interaction) : bool :=
  submit_pressed i && startswith (apikey (secrets env)) "sk-".

Definition temperature_of (i : Interaction) : Q :=
  select_slider slider_options 1 (slider_pick i).

Definition question_of (i : Interaction) : string :=
  question (text_area instructions_value (instructions_typed i))
    (text_area information_value (information_typed i))
    (text_area prompt_value (prompt_typed i)).

(** The four ways through the upload. *)
Inductive uploading (key : string) (files : list UploadedFile)
  : L -> V -> Z -> list Entry -> L -> V -> Z -> Prop :=
| chunking_raised : forall l v n e l1,
    InfoLoader.get_chunks files l = (Raised e, l1) ->
    uploading key files l v n
      [ StStatus "Lade hoch (das kann einen Moment dauern)...)";
        StWrite "Dokumente werden verarbeitet...";
        Invoke (GetChunks files);
        LogError "Exception during Splitting / embedding" e;
        StatusUpdate "Error occured." "error" ]
      l1 v n
| embedding_raised : forall l v n l1 e v1,
    InfoLoader.get_chunks files l = (Returned tt, l1) ->
    VectorDB.create_embedding_function key v = (Raised e, v1) ->
    uploading key files l v n
      [ StStatus "Lade hoch (das kann einen Moment dauern)...)";
        StWrite "Dokumente werden verarbeitet...";
        Invoke (GetChunks files);
        StWrite "Embeddings werden erstellt...";
        Invoke (CreateEmbeddingFunction key);
        LogError "Exception during Splitting / embedding" e;
        StatusUpdate "Error occured." "error" ]
      l1 v1 n
| database_raised : forall l v n l1 v1 e v2,
    InfoLoader.get_chunks files l = (Returned tt, l1) ->
    VectorDB.create_embedding_function key v = (Returned tt, v1) ->
    VectorDB.initialize_database (InfoLoader.document_chunks_full l1)
      (InfoLoader.document_names l1) v1 = (Raised e, v2) ->
    uploading key files l v n
      [ StStatus "Lade hoch (das kann einen Moment dauern)...)";
        StWrite "Dokumente werden verarbeitet...";
        Invoke (GetChunks files);
        StWrite "Embeddings werden erstellt...";
        Invoke (CreateEmbeddingFunction key);
        Invoke (InitializeDatabase (InfoLoader.document_chunks_full l1)
                  (InfoLoader.document_names l1));
        LogError "Exception during Splitting / embedding" e;
        StatusUpdate "Error occured." "error" ]
      l1 v2 n
| upload_complete : forall l v n l1 v1 v2,
    InfoLoader.get_chunks files l = (Returned tt, l1) ->
    VectorDB.create_embedding_function key v = (Returned tt, v1) ->
    VectorDB.initialize_database (InfoLoader.document_chunks_full l1)
      (InfoLoader.document_names l1) v1 = (Returned tt, v2) ->
    uploading key files l v n
      [ StStatus "Lade hoch (das kann einen Moment dauern)...)";
        StWrite "Dokumente werden verarbeitet...";
        Invoke (GetChunks files);
        StWrite "Embeddings werden erstellt...";
        Invoke (CreateEmbeddingFunction key);
        Invoke (InitializeDatabase (InfoLoader.document_chunks_full l1)
                  (InfoLoader.document_names l1));
        LogInfo "Current usage counter: "
          (IntValue (n + Z.of_nat (length (InfoLoader.document_names l1))));
        LogInfo "Erfolgreich hochgeladen: "
          (NamesValue (InfoLoader.document_names l1));
        StatusUpdate "Embedding vollständig!" "complete" ]
      l1 v2 (n + Z.of_nat (length (InfoLoader.document_names l1))).

(** The sidebar: the upload runs behind its gate. *)
Inductive sidebar_step (i : Interaction)
  : L -> V -> Z -> list Entry -> L -> V -> Z -> Prop :=
| upload_skipped : forall l v n,
    upload_gate i = false ->
    sidebar_step i l v n [] l v n
| upload_run : forall l v n t l1 v1 n1,
    upload_gate i = true ->
    uploading (apikey (secrets env)) (uploaded_files i) l v n t l1 v1 n1 ->
    sidebar_step i l v n t l1 v1 n1.

(** The four ways through the query. *)
Inductive querying (key : string) (temperature : Q) (prompt_mode source : string)
    (asked : string)
  : V -> list Entry -> option Response -> V -> Prop :=
| llm_raised : forall v e v1,
    VectorDB.create_llm key temperature v = (Raised e, v1) ->
    querying key temperature prompt_mode source asked v
      [ Invoke (CreateLlm key temperature);
        LogError "Exception during Querying" e;
        StError "Error occured, unable to process response!" ]
      None v1
| chain_raised : forall v v1 e v2,
    VectorDB.create_llm key temperature v = (Returned tt, v1) ->
    VectorDB.create_chain prompt_mode source v1 = (Raised e, v2) ->
    querying key temperature prompt_mode source asked v
      [ Invoke (CreateLlm key temperature);
        Invoke (CreateChain prompt_mode source);
        LogError "Exception during Querying" e;
        StError "Error occured, unable to process response!" ]
      None v2
| response_raised : forall v v1 v2 e v3,
    VectorDB.create_llm key temperature v = (Returned tt, v1) ->
    VectorDB.create_chain prompt_mode source v1 = (Returned tt, v2) ->
    VectorDB.get_response asked v2 = (Raised e, v3) ->
    querying key temperature prompt_mode source asked v
      [ Invoke (CreateLlm key temperature);
        Invoke (CreateChain prompt_mode source);
        Invoke (GetResponse asked);
        LogError "Exception during Querying" e;
        StError "Error occured, unable to process response!" ]
      None v3
| response_returned : forall v v1 v2 r v3,
    VectorDB.create_llm key temperature v = (Returned tt, v1) ->
    VectorDB.create_chain prompt_mode source v1 = (Returned tt, v2) ->
    VectorDB.get_response asked v2 = (Returned r, v3) ->
    querying key temperature prompt_mode source asked v
      [ Invoke (CreateLlm key temperature);
        Invoke (CreateChain prompt_mode source);
        Invoke (GetResponse asked) ]
      r v3.

(** What [display] shows of a result. *)
Definition shown (r : option Response) : list Entry :=
  match r with
  | Some answer => [StInfo "Anschreiben:"; StInfo (result answer)]
  | None => []
  end.

(** The warning of the form about the key. *)
Definition key_warning (key : string) : list Entry :=
  if negb (startswith key "sk-") then
    [StWarning (if key =? "NA"
                then "Host key currently not available, please use your own OpenAI API key!"
                else "Please enter your OpenAI API key!")]
  else [].

(** The form: the query runs behind its gate. *)
Inductive form_step (i : Interaction) : V -> list Entry -> V -> Prop :=
| query_skipped : forall v,
    submit_gate i = false ->
    form_step i v (key_warning (apikey (secrets env))) v
| query_run : forall v t r v1,
    submit_gate i = true ->
    querying (apikey (secrets env)) (temperature_of i)
      "Unrestricted" "Uploaded documents" (question_of i) v t r v1 ->
    form_step i v
      (key_warning (apikey (secrets env)) ++ StSpinner "Lade..." :: t ++ shown r)
      v1.

(** The entries of the info bar. *)
Definition info_entries (key : string) (names : list string) : list Entry :=
  StInfo ("Hochgeladene Dokumente: " ++ newline ++ newline ++ " "
          ++ doc_name_display names)
  :: (if negb (startswith key "sk-") || (key =? "NA")
      then [StWrite "Enter your API key on the sidebar to begin"]
      else []).

(** The entries of [configure_logging]. *)
Definition is_logging (e : Entry) : Prop :=
  e = LogInfo "Added filer_handler" NoValue
  \/ e = LogInfo "Added stream_handler" NoValue.

(** One run of the page from a world [w]: the entries of the run, and the
    objects and the counter it leaves. *)
Inductive page_step (i : Interaction) (w : World L V)
  : list Entry -> L -> V -> Z -> Prop :=
| page_run : forall c logs l v t1 l1 v1 n1 t2 v2,
    c = match config (session_state w) with
        | Some c => c
        | None => config_yml env
        end ->
    (l, v) = match resources w with
             | Some lv => lv
             | None => (InfoLoader.new c, VectorDB.new c)
             end ->
    Forall is_logging logs ->
    sidebar_step i l v (counter w) t1 l1 v1 n1 ->
    form_step i v1 t2 v2 ->
    page_step i w
      (SetPageConfig "Bewerbungsbot " :: logs ++ t1
       ++ StMarkdown "## :rocket: Willkommen zu deinem Bewerbungs-Assistenten"
       :: info_entries (apikey (secrets env)) (VectorDB.document_names v1)
       ++ t2)
      l1 v2 n1.

End Steps.

(** * Reading a trace *)

(** [sub in s]. *)
Fixpoint contains (s sub : string) : bool :=
  String.prefix sub s ||
  match s with
  | EmptyString => false
  | String _ s' => contains s' sub
  end.

(** The status of an upload that went through. *)
Definition is_complete (e : Entry) : bool :=
  match e with
  | StatusUpdate _ state => state =? "complete"
  | _ => false
  end.

Definition completed (t : list Entry) : bool := existsb is_complete t.

(** The file an exception names. *)
Definition exn_names (e : exn) (file : string) : bool :=
  match e with
  | UnsupportedFormat f | ExtractionError f => f =? file
  | OtherException what => contains what file
  | _ => false
  end.

(** An entry that a user or the log's reader sees names the file. *)
Definition reports (file : string) (e : Entry) : bool :=
  match e with
  | SetPageConfig text | StWrite text | StInfo text | StWarning text
  | StError text | StMarkdown text | StStatus text | StSpinner text =>
      contains text file
  | StatusUpdate label _ => contains label file
  | LogError text exc_info => contains text file || exn_names exc_info file
  | LogInfo text NoValue => contains text file
  | LogInfo text (IntValue z) => contains text file || contains (str z) file
  | LogInfo text (NamesValue names) =>
      contains text file || existsb (fun n => n =? file) names
  | Invoke _ => false
  end.

(** A call of the ingestion: chunking, the embedding function, the index. *)
Definition is_ingestion (c : Call) : bool :=
  match c with
  | GetChunks _ | CreateEmbeddingFunction _ | InitializeDatabase _ _ => true
  | _ => false
  end.

(** The extension is one of the four of the upload widget. *)
Definition allowed (f : UploadedFile) : bool :=
  existsb (fun ext => has_extension ext f) ["pdf"; "txt"; "docx"; "srt"].

Section Readings.

Context {L V : Type} {IL : InfoLoader.t L} {VD : VectorDB.t V}.
Variable env : Environment.

(** The objects a run starts from: the cached ones, new ones at the first
    run of the process. *)
Definition start_objects (w : World L V) : L * V :=
  match resources w with
  | Some lv => lv
  | None =>
      let c := match config (session_state w) with
               | Some c => c
               | None => config_yml env
               end in
      (InfoLoader.new c, VectorDB.new c)
  end.

(** The upload of the run goes through: its gate is open and the three
    calls return; [l1] and [v2] are the loader and the database after it. *)
Definition ingests (i : Interaction) (w : World L V) (l1 : L) (v2 : V) : Prop :=
  upload_gate env i = true
  /\ exists v1,
       InfoLoader.get_chunks (uploaded_files i) (fst (start_objects w))
       = (Returned tt, l1)
       /\ VectorDB.create_embedding_function (apikey (secrets env))
            (snd (start_objects w))
          = (Returned tt, v1)
       /\ VectorDB.initialize_database (InfoLoader.document_chunks_full l1)
            (InfoLoader.document_names l1) v1
          = (Returned tt, v2).

(** One of the three calls of a query raises [e] on the database [v]. *)
Inductive query_raises (key : string) (temperature : Q)
    (prompt_mode source asked : string) (v : V) (e : exn) : V -> Prop :=
| raises_at_llm : forall v1,
    VectorDB.create_llm key temperature v = (Raised e, v1) ->
    query_raises key temperature prompt_mode source asked v e v1
| raises_at_chain : forall v1 v2,
    VectorDB.create_llm key temperature v = (Returned tt, v1) ->
    VectorDB.create_chain prompt_mode source v1 = (Raised e, v2) ->
    query_raises key temperature prompt_mode source asked v e v2
| raises_at_response : forall v1 v2 v3,
    VectorDB.create_llm key temperature v = (Returned tt, v1) ->
    VectorDB.create_chain prompt_mode source v1 = (Returned tt, v2) ->
    VectorDB.get_response asked v2 = (Raised e, v3) ->
    query_raises key temperature prompt_mode source asked v e v3.

(** The file is handed to the Chunker by the run. *)
Definition reaches_chunker (i : Interaction) (w : World L V) (f : UploadedFile)
  : Prop :=
  exists files,
    In (Invoke (GetChunks files)) (trace (script_run env i w)) /\ In f files.

(** The readiness guard of the specification: on an empty index a submitted
    query fails with [NotReady] and the chain is not asked. *)
Definition not_ready_guard (i : Interaction) (w : World L V) : Prop :=
  VectorDB.document_names (snd (start_objects w)) = [] ->
  upload_gate env i = false ->
  submit_gate env i = true ->
  (exists text, In (LogError text NotReady) (trace (script_run env i w)))
  /\ (forall q, ~ In (Invoke (GetResponse q)) (trace (script_run env i w))).

End Readings.

Section PipelineReadings.

Variable extract : Pipeline.Format -> string -> option string.
Variable split : string -> list string.
Variable key_accepted : string -> bool.
Variable similarity : string -> string -> Q.
Variable complete : Q -> string -> outcome string.
Variable k : nat.
Variable env : Environment.

(** A run of the page on the collaborators of the specification. *)
Definition pipeline_run (i : Interaction)
    (w : World Pipeline.Loader Pipeline.Store)
  : World Pipeline.Loader Pipeline.Store :=
  @script_run _ _ (Pipeline.loader extract split)
    (Pipeline.vector_db key_accepted similarity complete k) env i w.

(** The partial-failure semantics of the specification, seen from the
    page: for a file of the batch that the Chunker cannot read, the files
    it can read are in the index after the run, and an entry of the run
    names the file that failed. *)
Definition partial_failure_reported (i : Interaction)
    (w : World Pipeline.Loader Pipeline.Store) : Prop :=
  forall f e,
    In f (uploaded_files i) ->
    Pipeline.chunk_file extract split f = inl e ->
    (forall g segments,
       In g (uploaded_files i) ->
       Pipeline.chunk_file extract split g = inr segments ->
       exists v', the_vector_db (pipeline_run i w) = Some v'
                  /\ In (name g) (Pipeline.names v'))
    /\ existsb (reports (name f)) (trace (pipeline_run i w)) = true.

End PipelineReadings.

(** * The head of a run, spelled out *)

(** The configuration a run works with: the session's, [config.yml] for a
    session that has none yet. *)
Definition session_config (env : Environment) (s : SessionState) : Config :=
  match config s with
  | Some c => c
  | None => config_yml env
  end.

(** The handler [configure_logging] adds to a root logger without one. *)
Definition first_handler (c : Config) : Handler :=
  if local c then FileHandler "app.log" else StreamHandler.

(** The handlers of the root logger after [configure_logging]. *)
Definition handlers_after (c : Config) (hs : list Handler) : list Handler :=
  match hs with
  | [] => [first_handler c]
  | _ :: _ => hs
  end.

(** What [configure_logging] logs. *)
Definition logging_entries_of (c : Config) (hs : list Handler) : list Entry :=
  match hs with
  | [] => [LogInfo (if local c then "Added filer_handler"
                    else "Added stream_handler") NoValue]
  | _ :: _ => []
  end.

(** The calls of a trace, in the order they were made. *)
Definition calls (t : list Entry) : list Call :=
  flat_map (fun e => match e with
                     | Invoke c => [c]
                     | _ => []
                     end) t.

(** A status of the upload, the final word of [st.status]. *)
Definition is_status_update (e : Entry) : bool :=
  match e with
  | StatusUpdate _ _ => true
  | _ => false
  end.

(** * A bench: the collaborators of the specification with a reader, a
      splitter and a provider small enough to run *)

Module Bench.

(** A file without content cannot be read. *)
Definition extract (_ : Pipeline.Format) (bytes : string) : option string :=
  if bytes =? "" then None else Some bytes.

Definition split (text : string) : list string := [text].

Definition key_accepted (api_key : string) : bool := startswith api_key "sk-".

Definition similarity (_ _ : string) : Q := 1.

Definition complete (_ : Q) (_ : string) : outcome string :=
  Returned "Sehr geehrter Herr Mustermensch".

Definition loader : InfoLoader.t Pipeline.Loader :=
  Pipeline.loader extract split.

Definition vector_db : VectorDB.t Pipeline.Store :=
  Pipeline.vector_db key_accepted similarity complete 3.

Definition env : Environment :=
  mkEnvironment (mkConfig true) (mkSecrets "sk-host" "geheim").

(** The first run of the process: nothing in the session, no objects. *)
Definition fresh : World Pipeline.Loader Pipeline.Store :=
  mkWorld (mkSessionState None None None) [] None [].

Definition run (i : Interaction) (w : World Pipeline.Loader Pipeline.Store)
  : World Pipeline.Loader Pipeline.Store :=
  pipeline_run extract split key_accepted similarity complete 3 env i w.

Definition cv : UploadedFile := mkFile "cv.pdf" "Zwanzig Jahre Erfahrung.".
Definition posting : UploadedFile := mkFile "posting.txt" "Wir suchen ...".
Definition scan : UploadedFile := mkFile "scan.pdf" "".
Definition brief : UploadedFile := mkFile "brief.odt" "Anlage".

(** A provider that throttles every call. *)
Definition throttled (_ : Q) (_ : string) : outcome string :=
  Raised RateLimitError.

Definition run_throttled (i : Interaction)
    (w : World Pipeline.Loader Pipeline.Store)
  : World Pipeline.Loader Pipeline.Store :=
  pipeline_run extract split key_accepted similarity throttled 3 env i w.

(** A loader that keeps the names of the files it is given. *)
Definition stub_loader : InfoLoader.t (list string) := {|
  InfoLoader.new := fun _ => [];
  InfoLoader.get_chunks := fun files _ => (Returned tt, map name files);
  InfoLoader.document_chunks_full := fun _ => [];
  InfoLoader.document_names := fun l => l
|}.

(** A database that keeps the names it is initialized with; the outcomes
    of the other calls are given. *)
Definition stub_database (embedding llm chain : outcome unit)
    (response : outcome (option Response)) : VectorDB.t (list string) := {|
  VectorDB.new := fun _ => [];
  VectorDB.create_embedding_function := fun _ v => (embedding, v);
  VectorDB.initialize_database := fun _ names _ => (Returned tt, names);
  VectorDB.document_names := fun v => v;
  VectorDB.create_llm := fun _ _ v => (llm, v);
  VectorDB.create_chain := fun _ _ v => (chain, v);
  VectorDB.get_response := fun _ v => (response, v)
|}.

(** A host without a key of the provider, logging to the console. *)
Definition env_without_key : Environment :=
  mkEnvironment (mkConfig false) (mkSecrets "NA" "geheim").

(** The upload button with the right password. *)
Definition uploads (files : list UploadedFile) : Interaction :=
  mkInteraction "geheim" files true None None None None false.

(** No button pressed. *)
Definition idle : Interaction :=
  mkInteraction "" [] false None None None None false.

(** The upload button with a wrong password. *)
Definition intrudes (files : list UploadedFile) : Interaction :=
  mkInteraction "falsch" files true None None None None false.

(** The submit button, the slider at a position. *)
Definition submits (pick : option nat) : Interaction :=
  mkInteraction "" [] false pick None None None true.

End Bench.

(** * The page runs as the step relations say *)

Section PageFacts.

Context {L V : Type} {IL : InfoLoader.t L} {VD : VectorDB.t V}.
Variable env : Environment.

Ltac trace_norm := repeat (rewrite <- app_assoc; simpl).

Lemma upload_sound (key : string) (files : list UploadedFile)
    (c : Config) (n : Z) (hs : list Handler) (l : L) (v : V) (t : list Entry) :
  exists t' l1 v1 n1,
    upload key files
      (mkWorld (mkSessionState (Some c) (Some n) (Some key)) hs (Some (l, v)) t)
    = (Returned tt,
       mkWorld (mkSessionState (Some c) (Some n1) (Some key)) hs
         (Some (l1, v1)) (t ++ t'))
    /\ uploading key files l v n t' l1 v1 n1.
Proof.
  unfold upload, ingest, ingested, try_except_else, call_loader, call_vector_db,
    loader_attr, when, bind, say, on_loader, on_vector_db, read_session,
    write_session, ret; simpl.
  destruct (InfoLoader.get_chunks files l) as [[[]|e] l1] eqn:Hchunks; simpl.
  - destruct (VectorDB.create_embedding_function key v) as [[[]|e] v1] eqn:Hembed; simpl.
    + destruct (VectorDB.initialize_database _ _ v1) as [[[]|e] v2] eqn:Hinit; simpl.
      * rewrite String.eqb_refl; simpl.
        eexists _, _, _, _. split.
        -- trace_norm. reflexivity.
        -- now apply upload_complete with (v1 := v1).
      * eexists _, _, _, _. split.
        -- trace_norm. reflexivity.
        -- now apply database_raised with (v1 := v1).
    + eexists _, _, _, _. split.
      * trace_norm. reflexivity.
      * now apply embedding_raised.
  - eexists _, _, _, _. split.
    + trace_norm. reflexivity.
    + now apply chunking_raised.
Qed.

Lemma query_sound (key : string) (temperature : Q) (prompt_mode source : string)
    (user_instructions user_information user_input : string)
    (s : SessionState) (hs : list Handler) (l : L) (v : V) (t : list Entry) :
  exists t' r v1,
    query key temperature prompt_mode source
      user_instructions user_information user_input
      (mkWorld s hs (Some (l, v)) t)
    = (Returned r, mkWorld s hs (Some (l, v1)) (t ++ t'))
    /\ querying key temperature prompt_mode source
         (question user_instructions user_information user_input) v t' r v1.
Proof.
  unfold query, try_except_else, call_vector_db, bind, say, on_vector_db, ret;
    simpl.
  destruct (VectorDB.create_llm key temperature v) as [[[]|e] v1] eqn:Hllm; simpl.
  - destruct (VectorDB.create_chain prompt_mode source v1) as [[[]|e] v2] eqn:Hchain;
      simpl.
    + destruct (VectorDB.get_response _ v2) as [[r|e] v3] eqn:Hresponse; simpl.
      * eexists _, _, _. split.
        -- trace_norm. reflexivity.
        -- now apply response_returned with (v1 := v1) (v2 := v2).
      * eexists _, _, _. split.
        -- trace_norm. reflexivity.
        -- now apply response_raised with (v1 := v1) (v2 := v2).
    + eexists _, _, _. split.
      * trace_norm. reflexivity.
      * now apply chain_raised with (v1 := v1).
  - eexists _, _, _. split.
    + trace_norm. reflexivity.
    + now apply llm_raised.
Qed.

Lemma sidebar_sound (i : Interaction) (c : Config) (n : Z) (hs : list Handler)
    (l : L) (v : V) (t : list Entry) :
  exists t' l1 v1 n1,
    sidebar env i
      (mkWorld (mkSessionState (Some c) (Some n) (Some (apikey (secrets env))))
         hs (Some (l, v)) t)
    = (Returned (apikey (secrets env), temperature_of i),
       mkWorld (mkSessionState (Some c) (Some n1) (Some (apikey (secrets env))))
         hs (Some (l1, v1)) (t ++ t'))
    /\ sidebar_step env i l v n t' l1 v1 n1.
Proof.
  unfold sidebar. unfold bind at 1. unfold read_session at 1. simpl.
  fold (uploaded_files i). fold (upload_gate env i).
  destruct (upload_gate env i) eqn:Hgate; unfold when, bind; simpl.
  - destruct (upload_sound (apikey (secrets env)) (uploaded_files i) c n hs l v t)
      as (t' & l1 & v1 & n1 & Hrun & Hstep).
    rewrite Hrun. exists t', l1, v1, n1. split; [reflexivity|].
    now apply upload_run.
  - exists [], l, v, n. rewrite app_nil_r. split; [reflexivity|].
    now apply upload_skipped.
Qed.

Lemma info_bar_sound (key : string) (s : SessionState) (hs : list Handler)
    (l : L) (v : V) (t : list Entry) :
  info_bar key (mkWorld s hs (Some (l, v)) t)
  = (Returned tt,
     mkWorld s hs (Some (l, v)) (t ++ info_entries key (VectorDB.document_names v))).
Proof.
  unfold info_bar, info_entries, vector_db_attr, when, bind, say, on_vector_db, ret;
    simpl.
  destruct (negb (startswith key "sk-") || (key =? "NA")); simpl;
    trace_norm; reflexivity.
Qed.

Lemma form_sound (i : Interaction) (s : SessionState) (hs : list Handler)
    (l : L) (v : V) (t : list Entry) :
  exists t' v1,
    form i (apikey (secrets env)) (temperature_of i) (mkWorld s hs (Some (l, v)) t)
    = (Returned tt, mkWorld s hs (Some (l, v1)) (t ++ t'))
    /\ form_step env i v t' v1.
Proof.
  unfold form. fold (submit_gate env i). fold (question_of i).
  set (key := apikey (secrets env)).
  assert (Hwarn : forall k : Script unit,
    bind (when (negb (startswith key "sk-"))
            (if key =? "NA"
             then say (StWarning "Host key currently not available, please use your own OpenAI API key!")
             else say (StWarning "Please enter your OpenAI API key!")))
         (fun _ => k) (mkWorld s hs (Some (l, v)) t)
    = k (mkWorld s hs (Some (l, v)) (t ++ key_warning key))).
  { intros k. unfold key_warning, when, bind, say, ret.
    destruct (negb (startswith key "sk-")); simpl.
    - destruct (key =? "NA"); reflexivity.
    - now rewrite app_nil_r. }
  rewrite Hwarn. clear Hwarn.
  destruct (submit_gate env i) eqn:Hgate; unfold when.
  - unfold bind at 1. unfold say at 1. simpl.
    unfold bind at 1. unfold question_of.
    destruct (query_sound key (temperature_of i) "Unrestricted" "Uploaded documents"
                (text_area instructions_value (instructions_typed i))
                (text_area information_value (information_typed i))
                (text_area prompt_value (prompt_typed i))
                s hs l v ((t ++ key_warning key) ++ [StSpinner "Lade..."]))
      as (t' & r & v1 & Hrun & Hstep).
    rewrite Hrun.
    exists (key_warning key ++ StSpinner "Lade..." :: t' ++ shown r), v1. split.
    + destruct r as [answer|]; unfold display, bind, say, ret; simpl;
        trace_norm; try rewrite app_nil_r; reflexivity.
    + now apply query_run.
  - exists (key_warning key), v. split; [reflexivity|].
    now apply query_skipped.
Qed.

Lemma load_sound (w : World L V) :
  exists c hs logs l v,
    load env w
    = (Returned tt,
       mkWorld (mkSessionState (Some c) (Some (counter w))
                  (Some (apikey (secrets env))))
         hs (Some (l, v)) (trace w ++ SetPageConfig "Bewerbungsbot " :: logs))
    /\ c = match config (session_state w) with
           | Some c => c
           | None => config_yml env
           end
    /\ (l, v) = match resources w with
                | Some lv => lv
                | None => (InfoLoader.new c, VectorDB.new c)
                end
    /\ Forall is_logging logs.
Proof.
  destruct w as [[cfg usage host] hs res t].
  unfold load, initialize_session_state, get_resources, configure_logging,
    add_handler, counter, when, bind, say, read_session, write_session, ret,
    is_logging; simpl.
  destruct cfg as [c|]; destruct usage as [n|]; simpl.
  all: match goal with
       | |- context [local ?c] => destruct (local c)
       end; simpl.
  all: destruct hs as [|h hs]; simpl.
  all: destruct res as [[l v]|]; simpl.
  all: eexists _, _, _, _, _; split;
    [ trace_norm; try rewrite app_nil_r; reflexivity
    | split; [reflexivity | split; [reflexivity | auto 6]] ].
Qed.

(** Every run of the page returns, and is a [page_step]. *)
Lemma main_sound (i : Interaction) (w : World L V) :
  exists c hs t l v n,
    main env i (mkWorld (session_state w) (handlers w) (resources w) [])
    = (Returned tt,
       mkWorld (mkSessionState (Some c) (Some n) (Some (apikey (secrets env))))
         hs (Some (l, v)) t)
    /\ page_step env i w t l v n.
Proof.
  unfold main.
  destruct (load_sound (mkWorld (session_state w) (handlers w) (resources w) []))
    as (c & hs & logs & l & v & Hload & Hc & Hlv & Hlogs).
  simpl in Hc, Hlv. rewrite app_nil_l in Hload.
  unfold bind at 1. rewrite Hload.
  destruct (sidebar_sound i c
              (counter (mkWorld (session_state w) (handlers w) (resources w) []))
              hs l v (SetPageConfig "Bewerbungsbot " :: logs))
    as (t1 & l1 & v1 & n1 & Hside & Hstep1).
  unfold bind at 1. rewrite Hside. simpl fst. simpl snd.
  unfold bind at 1. unfold say at 1. simpl.
  unfold bind at 1. rewrite info_bar_sound.
  match goal with
  | |- context [form _ _ _ (mkWorld ?s ?hs (Some (?l, ?v)) ?t)] =>
      destruct (form_sound i s hs l v t) as (t2 & v2 & Hform & Hstep2)
  end.
  rewrite Hform.
  eexists c, hs, _, l1, v2, n1. split; [reflexivity|].
  replace (_ ++ t2) with
      (SetPageConfig "Bewerbungsbot " :: logs ++ t1
       ++ StMarkdown "## :rocket: Willkommen zu deinem Bewerbungs-Assistenten"
       :: info_entries (apikey (secrets env)) (VectorDB.document_names v1) ++ t2)
      by (trace_norm; reflexivity).
  now apply page_run with (c := c) (l := l) (v := v) (v1 := v1).
Qed.

(** A run leaves a world with its session set, and is a [page_step]. *)
Lemma script_run_sound (i : Interaction) (w : World L V) :
  exists c hs t l v n,
    script_run env i w
    = mkWorld (mkSessionState (Some c) (Some n) (Some (apikey (secrets env))))
        hs (Some (l, v)) t
    /\ page_step env i w t l v n.
Proof.
  destruct (main_sound i w) as (c & hs & t & l & v & n & Hrun & Hstep).
  exists c, hs, t, l, v, n. split; [|exact Hstep].
  unfold script_run. now rewrite Hrun.
Qed.

(** ** The calls of a run *)

Ltac members H :=
  repeat (simpl in H; destruct H as [H|H]); try discriminate H; try contradiction.

Lemma logging_not_call (logs : list Entry) (c : Call) :
  Forall is_logging logs -> ~ In (Invoke c) logs.
Proof.
  intros Hlogs Hin. rewrite Forall_forall in Hlogs.
  destruct (Hlogs _ Hin) as [H|H]; discriminate H.
Qed.

Lemma info_entries_not_call (key : string) (names : list string) (c : Call) :
  ~ In (Invoke c) (info_entries key names).
Proof.
  unfold info_entries. intros Hin.
  destruct (negb (startswith key "sk-") || (key =? "NA")); members Hin.
Qed.

Lemma key_warning_not_call (key : string) (c : Call) :
  ~ In (Invoke c) (key_warning key).
Proof.
  unfold key_warning. intros Hin.
  destruct (negb (startswith key "sk-")); members Hin.
Qed.

Lemma shown_not_call (r : option Response) (c : Call) :
  ~ In (Invoke c) (shown r).
Proof.
  intros Hin. destruct r; members Hin.
Qed.

Lemma uploading_calls (key : string) (files : list UploadedFile)
    (l : L) (v : V) (n : Z) (t : list Entry) (l1 : L) (v1 : V) (n1 : Z) (c : Call) :
  uploading key files l v n t l1 v1 n1 ->
  In (Invoke c) t ->
  c = GetChunks files
  \/ c = CreateEmbeddingFunction key
  \/ c = InitializeDatabase (InfoLoader.document_chunks_full l1)
           (InfoLoader.document_names l1).
Proof.
  intros Hstep Hin.
  destruct Hstep; members Hin; inversion Hin; auto.
Qed.

Lemma querying_calls (key : string) (temperature : Q) (prompt_mode source : string)
    (asked : string) (v : V) (t : list Entry) (r : option Response) (v1 : V)
    (c : Call) :
  querying key temperature prompt_mode source asked v t r v1 ->
  In (Invoke c) t ->
  c = CreateLlm key temperature
  \/ c = CreateChain prompt_mode source
  \/ c = GetResponse asked.
Proof.
  intros Hstep Hin.
  destruct Hstep; members Hin; inversion Hin; auto.
Qed.

(** Every call of a run is a call of the upload behind its gate or a call
    of the query behind its gate, with the arguments of the page. *)
Lemma page_step_calls (i : Interaction) (w : World L V) (t : list Entry)
    (l : L) (v : V) (n : Z) (c : Call) :
  page_step env i w t l v n ->
  In (Invoke c) t ->
  (upload_gate env i = true
   /\ (c = GetChunks (uploaded_files i)
       \/ c = CreateEmbeddingFunction (apikey (secrets env))
       \/ c = InitializeDatabase (InfoLoader.document_chunks_full l)
                (InfoLoader.document_names l)))
  \/ (submit_gate env i = true
      /\ (c = CreateLlm (apikey (secrets env)) (temperature_of i)
          \/ c = CreateChain "Unrestricted" "Uploaded documents"
          \/ c = GetResponse (question_of i))).
Proof.
  intros Hstep Hin.
  destruct Hstep as [cfg logs l0 v0 t1 l1 v1 n1 t2 v2 _ _ Hlogs Hside Hform].
  apply in_inv in Hin. destruct Hin as [Hin|Hin]; [discriminate Hin|].
  apply in_app_or in Hin. destruct Hin as [Hin|Hin];
    [now apply logging_not_call in Hin|].
  apply in_app_or in Hin. destruct Hin as [Hin|Hin].
  - left. destruct Hside as [|? ? ? ? ? ? ? Hgate Hup]; [contradiction|].
    split; [exact Hgate|]. eapply uploading_calls; eassumption.
  - apply in_inv in Hin. destruct Hin as [Hin|Hin]; [discriminate Hin|].
    apply in_app_or in Hin. destruct Hin as [Hin|Hin];
      [now apply info_entries_not_call in Hin|].
    right. destruct Hform as [? Hgate|? ? ? ? Hgate Hquery].
    + now apply key_warning_not_call in Hin.
    + split; [exact Hgate|].
      apply in_app_or in Hin. destruct Hin as [Hin|Hin];
        [now apply key_warning_not_call in Hin|].
      apply in_inv in Hin. destruct Hin as [Hin|Hin]; [discriminate Hin|].
      apply in_app_or in Hin. destruct Hin as [Hin|Hin];
        [|now apply shown_not_call in Hin].
      eapply querying_calls; eassumption.
Qed.

(** The calls of [script_run]. *)
Lemma script_run_calls (i : Interaction) (w : World L V) (c : Call) :
  In (Invoke c) (trace (script_run env i w)) ->
  (upload_gate env i = true
   /\ (c = GetChunks (uploaded_files i)
       \/ c = CreateEmbeddingFunction (apikey (secrets env))
       \/ exists chunks names, c = InitializeDatabase chunks names))
  \/ (submit_gate env i = true
      /\ (c = CreateLlm (apikey (secrets env)) (temperature_of i)
          \/ c = CreateChain "Unrestricted" "Uploaded documents"
          \/ c = GetResponse (question_of i))).
Proof.
  destruct (script_run_sound i w) as (cfg & hs & t & l & v & n & Hrun & Hstep).
  rewrite Hrun. simpl. intros Hin.
  destruct (page_step_calls _ _ _ _ _ _ _ Hstep Hin) as [[Hgate H]|H];
    [left; split; [exact Hgate|] | right; exact H].
  destruct H as [H|[H|H]]; eauto.
Qed.

(** ** The gates *)

Lemma truthy_true {A : Type} (l : list A) : truthy l = true <-> l <> [].
Proof.
  destruct l; simpl; split; intro H; try congruence; try reflexivity.
Qed.

Lemma upload_gate_true (i : Interaction) :
  upload_gate env i = true
  <-> upload_pressed i = true /\ uploaded_files i <> []
      /\ password_typed i = password (secrets env).
Proof.
  unfold upload_gate.
  rewrite !andb_true_iff, String.eqb_eq, truthy_true. tauto.
Qed.

Lemma upload_gate_false (i : Interaction) :
  upload_pressed i = false \/ uploaded_files i = []
  \/ password_typed i <> password (secrets env) ->
  upload_gate env i = false.
Proof.
  intros H. destruct (upload_gate env i) eqn:Hgate; [|reflexivity].
  apply upload_gate_true in Hgate. destruct Hgate as (Hp & Hf & Hs).
  destruct H as [H|[H|H]]; congruence.
Qed.

Lemma start_objects_step (w : World L V) (c : Config) (l : L) (v : V) :
  c = match config (session_state w) with
      | Some c => c
      | None => config_yml env
      end ->
  (l, v) = match resources w with
           | Some lv => lv
           | None => (InfoLoader.new c, VectorDB.new c)
           end ->
  start_objects env w = (l, v).
Proof.
  intros -> ->. unfold start_objects. now destruct (resources w).
Qed.

(** ** What the run tells about the upload *)

Lemma completed_app (t1 t2 : list Entry) :
  completed (t1 ++ t2) = completed t1 || completed t2.
Proof. apply existsb_app. Qed.

Lemma logging_not_completed (logs : list Entry) :
  Forall is_logging logs -> completed logs = false.
Proof.
  induction 1 as [|e logs He _ IH]; [reflexivity|].
  simpl. rewrite IH. destruct He as [-> | ->]; reflexivity.
Qed.

Lemma info_entries_not_completed (key : string) (names : list string) :
  completed (info_entries key names) = false.
Proof.
  unfold info_entries.
  destruct (negb (startswith key "sk-") || (key =? "NA")); reflexivity.
Qed.

Lemma form_step_not_completed (i : Interaction) (v : V) (t : list Entry) (v1 : V) :
  form_step env i v t v1 -> completed t = false.
Proof.
  assert (Hwarn : forall key, completed (key_warning key) = false).
  { intros key. unfold key_warning.
    destruct (negb (startswith key "sk-")); reflexivity. }
  intros [? _|? ? r ? _ Hquery]; [apply Hwarn|].
  rewrite completed_app, Hwarn. simpl.
  rewrite completed_app.
  replace (completed (shown r)) with false by (destruct r; reflexivity).
  destruct Hquery; reflexivity.
Qed.

(** The upload of a step went through or it did not, as the three calls
    decide. *)
Lemma uploading_outcome (key : string) (files : list UploadedFile)
    (l : L) (v : V) (n : Z) (t : list Entry) (l1 : L) (v1 : V) (n1 : Z) :
  uploading key files l v n t l1 v1 n1 ->
  (completed t = true
   /\ n1 = (n + Z.of_nat (length (InfoLoader.document_names l1)))%Z
   /\ exists v0,
        InfoLoader.get_chunks files l = (Returned tt, l1)
        /\ VectorDB.create_embedding_function key v = (Returned tt, v0)
        /\ VectorDB.initialize_database (InfoLoader.document_chunks_full l1)
             (InfoLoader.document_names l1) v0 = (Returned tt, v1))
  \/ (completed t = false
      /\ n1 = n
      /\ forall l2 v0 v2,
           InfoLoader.get_chunks files l = (Returned tt, l2) ->
           VectorDB.create_embedding_function key v = (Returned tt, v0) ->
           VectorDB.initialize_database (InfoLoader.document_chunks_full l2)
             (InfoLoader.document_names l2) v0 = (Returned tt, v2) ->
           False).
Proof.
  intros [ ? ? ? ? ? H1 | ? ? ? ? ? ? H1 H2 | ? ? ? ? ? ? ? H1 H2 H3
         | ? ? ? ? ? ? H1 H2 H3 ].
  - right. repeat split; try reflexivity. intros; congruence.
  - right. repeat split; try reflexivity. intros; congruence.
  - right. repeat split; try reflexivity.
    intros la va vb G1 G2 G3.
    rewrite H1 in G1. inversion G1; subst.
    rewrite H2 in G2. inversion G2; subst. congruence.
  - left. repeat split; try reflexivity. eauto.
Qed.

(** The upload of a run: it goes through exactly when [ingests] holds, and
    then the run leaves the loader after chunking and adds the number of its
    documents to the counter. *)
Lemma page_step_upload (i : Interaction) (w : World L V) (t : list Entry)
    (l : L) (v : V) (n : Z) :
  page_step env i w t l v n ->
  (completed t = true
   /\ n = (counter w + Z.of_nat (length (InfoLoader.document_names l)))%Z
   /\ exists v2, ingests env i w l v2)
  \/ (completed t = false
      /\ n = counter w
      /\ forall l1 v2, ~ ingests env i w l1 v2).
Proof.
  intros [c logs l0 v0 t1 l1 v1 n1 t2 v2 Hc Hlv Hlogs Hside Hform].
  pose proof (start_objects_step w c l0 v0 Hc Hlv) as Hstart.
  assert (Hrest : forall x, completed
            (SetPageConfig "Bewerbungsbot " :: logs ++ x
             ++ StMarkdown "## :rocket: Willkommen zu deinem Bewerbungs-Assistenten"
             :: info_entries (apikey (secrets env)) (VectorDB.document_names v1)
             ++ t2) = completed x).
  { intros x. change (SetPageConfig "Bewerbungsbot " :: logs ++ ?y)
      with ([SetPageConfig "Bewerbungsbot "] ++ logs ++ y).
    rewrite !completed_app, (logging_not_completed logs Hlogs).
    change (StMarkdown ?m :: ?y) with ([StMarkdown m] ++ y).
    rewrite !completed_app, info_entries_not_completed,
      (form_step_not_completed _ _ _ _ Hform).
    simpl. now rewrite orb_false_r. }
  rewrite Hrest.
  inversion Hside as [? ? ? Hgate|? ? ? ? ? ? ? Hgate Hup]; subst.
  - right. repeat split; try reflexivity.
    intros la va [Hopen _]. congruence.
  - destruct (uploading_outcome _ _ _ _ _ _ _ _ _ Hup)
      as [(Hdone & Hn & vb & H1 & H2 & H3)|(Hdone & Hn & Hnot)].
    + left. repeat split; try assumption.
      exists v1. split; [exact Hgate|]. exists vb. rewrite Hstart. simpl. auto.
    + right. repeat split; try assumption.
      intros la va (_ & vb & H1 & H2 & H3). rewrite Hstart in H1, H2.
      simpl in H1, H2. eauto.
Qed.

(** ** Where an entry of a run comes from *)

Lemma page_trace_in (x : Entry) (logs t1 info t2 : list Entry) :
  In x (SetPageConfig "Bewerbungsbot " :: logs ++ t1
        ++ StMarkdown "## :rocket: Willkommen zu deinem Bewerbungs-Assistenten"
        :: info ++ t2)
  <-> x = SetPageConfig "Bewerbungsbot "
      \/ In x logs \/ In x t1
      \/ x = StMarkdown "## :rocket: Willkommen zu deinem Bewerbungs-Assistenten"
      \/ In x info \/ In x t2.
Proof.
  change (SetPageConfig "Bewerbungsbot " :: logs ++ ?y)
    with ([SetPageConfig "Bewerbungsbot "] ++ logs ++ y).
  change (StMarkdown ?m :: ?y) with ([StMarkdown m] ++ y).
  rewrite !in_app_iff. simpl. intuition congruence.
Qed.

Lemma form_step_error (i : Interaction) (v : V) (t : list Entry) (v1 : V) (e : exn) :
  form_step env i v t v1 ->
  In (LogError "Exception during Querying" e) t ->
  In (StError "Error occured, unable to process response!") t
  /\ ~ In (StInfo "Anschreiben:") t.
Proof.
  assert (Hwarn : forall key x, In x (key_warning key) -> exists text, x = StWarning text).
  { intros key x. unfold key_warning.
    destruct (negb (startswith key "sk-")); intros Hin; members Hin; eauto. }
  intros [? _|? ? r ? _ Hquery] Hin.
  - apply Hwarn in Hin. destruct Hin as [text Hin]. discriminate Hin.
  - apply in_app_or in Hin. destruct Hin as [Hin|Hin];
      [apply Hwarn in Hin; destruct Hin as [text Hin]; discriminate Hin|].
    apply in_inv in Hin. destruct Hin as [Hin|Hin]; [discriminate Hin|].
    split.
    + apply in_or_app. right. right.
      destruct Hquery; simpl in *; intuition (try discriminate).
      destruct r; simpl in *; intuition discriminate.
    + intros Hshown.
      apply in_app_or in Hshown. destruct Hshown as [Hshown|Hshown];
        [apply Hwarn in Hshown; destruct Hshown as [text Hshown]; discriminate Hshown|].
      apply in_inv in Hshown. destruct Hshown as [Hshown|Hshown];
        [discriminate Hshown|].
      destruct Hquery; simpl in *; intuition (try discriminate).
      destruct r; simpl in *; intuition discriminate.
Qed.

Lemma form_step_answer (i : Interaction) (v : V) (t : list Entry) (v1 : V) :
  form_step env i v t v1 ->
  In (StInfo "Anschreiben:") t ->
  submit_gate env i = true
  /\ exists answer v2 v3,
       VectorDB.get_response (question_of i) v2 = (Returned (Some answer), v3)
       /\ In (StInfo (result answer)) t.
Proof.
  assert (Hwarn : forall key x, In x (key_warning key) -> exists text, x = StWarning text).
  { intros key x. unfold key_warning.
    destruct (negb (startswith key "sk-")); intros Hin; members Hin; eauto. }
  intros [? _|? ? r ? Hgate Hquery] Hin.
  - apply Hwarn in Hin. destruct Hin as [text Hin]. discriminate Hin.
  - split; [exact Hgate|].
    apply in_app_or in Hin. destruct Hin as [Hin|Hin];
      [apply Hwarn in Hin; destruct Hin as [text Hin]; discriminate Hin|].
    apply in_inv in Hin. destruct Hin as [Hin|Hin]; [discriminate Hin|].
    destruct Hquery as [| | |? ? v2 r v3 _ _ Hresponse];
      try (simpl in Hin; intuition discriminate).
    destruct r as [answer|]; [|simpl in Hin; intuition discriminate].
    exists answer, v2, v3. split; [exact Hresponse|].
    apply in_or_app. right. right. apply in_or_app. right. simpl. auto.
Qed.

Lemma uploading_entries (key : string) (files : list UploadedFile)
    (l : L) (v : V) (n : Z) (t : list Entry) (l1 : L) (v1 : V) (n1 : Z) (x : Entry) :
  uploading key files l v n t l1 v1 n1 ->
  In x t ->
  (forall e, x <> LogError "Exception during Querying" e)
  /\ (forall text, x <> StInfo text)
  /\ (forall text, x <> StError text).
Proof.
  intros Hstep Hin.
  destruct Hstep; members Hin; subst x; repeat split; intros; discriminate.
Qed.

Lemma logging_entries (logs : list Entry) (x : Entry) :
  Forall is_logging logs ->
  In x logs ->
  (forall e, x <> LogError "Exception during Querying" e)
  /\ (forall text, x <> StInfo text)
  /\ (forall text, x <> StError text).
Proof.
  intros Hlogs Hin. rewrite Forall_forall in Hlogs.
  destruct (Hlogs _ Hin) as [-> | ->]; repeat split; intros; discriminate.
Qed.

Lemma info_entries_in (key : string) (names : list string) (x : Entry) :
  In x (info_entries key names) ->
  (forall e, x <> LogError "Exception during Querying" e)
  /\ x <> StInfo "Anschreiben:"
  /\ (forall text, x <> StError text).
Proof.
  unfold info_entries. intros Hin.
  destruct (negb (startswith key "sk-") || (key =? "NA")); members Hin;
    subst x; repeat split; intros; discriminate.
Qed.

(** ** The claims about the page, whatever the collaborators do *)



(** C9: the calls of the ingestion (chunking, the embedding function, the
    initialization of the index) are made only in a run where the upload
    button is pressed, a file is uploaded and the password entered is the
    stored secret; in a run where the password does not match or no file is
    uploaded (or the button is not pressed), the usage counter and the loader
    are unchanged, the index is not initialized, and the vector database is
    touched by the calls of the query only: it is unchanged when no query is
    submitted. *)
Theorem ingestion_gated (i : Interaction) (w : World L V) :
  (forall c,
     In (Invoke c) (trace (script_run env i w)) -> is_ingestion c = true ->
     upload_pressed i = true /\ uploaded_files i <> []
     /\ password_typed i = password (secrets env))
  /\ (upload_pressed i = false \/ uploaded_files i = []
      \/ password_typed i <> password (secrets env) ->
      counter (script_run env i w) = counter w
      /\ the_loader (script_run env i w) = Some (fst (start_objects env w))
      /\ (forall c, In (Invoke c) (trace (script_run env i w)) ->
                    is_ingestion c = false)
      /\ (exists v' t,
            the_vector_db (script_run env i w) = Some v'
            /\ form_step env i (snd (start_objects env w)) t v')
      /\ (submit_gate env i = false ->
          the_vector_db (script_run env i w) = Some (snd (start_objects env w)))).
Proof.
  split.
  - intros c Hin Hc. apply script_run_calls in Hin.
    destruct Hin as [[Hgate _]|[_ [H|[H|H]]]]; try (subst c; discriminate Hc).
    now apply upload_gate_true.
  - intros Hclosed. apply upload_gate_false in Hclosed.
    pose proof (script_run_calls i w) as Hcalls.
    destruct (script_run_sound i w) as (c & hs & t & l & v & n & Hrun & Hstep).
    rewrite Hrun in *. unfold counter at 1, the_loader, the_vector_db. simpl.
    destruct Hstep as [cfg logs l0 v0 t1 l1 v1 n1 t2 v2 Hc Hlv Hlogs Hside Hform].
    rewrite (start_objects_step w cfg l0 v0 Hc Hlv). simpl.
    inversion Hside as [? ? ? _|? ? ? ? ? ? ? Hgate _]; subst; [|congruence].
    repeat split.
    + intros call Hin. apply Hcalls in Hin.
      destruct Hin as [[Hgate _]|[_ [H|[H|H]]]]; [congruence| | |];
        subst call; reflexivity.
    + exists v2, t2. split; [reflexivity|exact Hform].
    + intros Hsubmit.
      inversion Hform as [? _|? ? ? ? Hgate _]; subst; [reflexivity|congruence].
Qed.

(** C6: the usage counter never decreases over a run; a run that finds no
    counter sets it, to 0 when nothing is ingested; a run whose upload goes
    through adds exactly the number of the documents the loader holds after
    chunking; a run whose upload fails or is not made, with or without a
    query, leaves the counter as it was. *)
Theorem usage_counter_monotone (i : Interaction) (w : World L V) :
  usage_counter (session_state (script_run env i w))
  = Some (counter (script_run env i w))
  /\ (counter w <= counter (script_run env i w))%Z
  /\ (forall l1 v2,
        ingests env i w l1 v2 ->
        counter (script_run env i w)
        = (counter w + Z.of_nat (length (InfoLoader.document_names l1)))%Z)
  /\ ((forall l1 v2, ~ ingests env i w l1 v2) ->
      counter (script_run env i w) = counter w)
  /\ (usage_counter (session_state w) = None ->
      (forall l1 v2, ~ ingests env i w l1 v2) ->
      usage_counter (session_state (script_run env i w)) = Some 0%Z).
Proof.
  destruct (script_run_sound i w) as (c & hs & t & l & v & n & Hrun & Hstep).
  rewrite Hrun. unfold counter at 1 3 4 6. simpl.
  destruct (page_step_upload _ _ _ _ _ _ Hstep)
    as [(_ & Hn & v2 & Hin)|(_ & Hn & Hnot)].
  - split; [reflexivity|]. split; [lia|]. split; [|split].
    + intros l1 v3 (_ & va & H1 & _). destruct Hin as (_ & vb & G1 & _).
      rewrite G1 in H1. inversion H1; subst. reflexivity.
    + intros Hnone. now destruct (Hnone _ _ Hin).
    + intros _ Hnone. now destruct (Hnone _ _ Hin).
  - subst n. split; [reflexivity|]. split; [lia|]. split; [|split].
    + intros l1 v3 Hin. now destruct (Hnot _ _ Hin).
    + reflexivity.
    + intros Hnone _. unfold counter. now rewrite Hnone.
Qed.

(** C8: no error of a query is turned into an answer.  In a run of the
    page, if the handler of the query logs an exception, the error message
    is shown and no answer is; an answer is shown only behind the submit
    button, when [get_response] returned it, and then the answer's text is
    shown.  And whenever [create_llm], [create_chain] or [get_response]
    raises, [query] ends in the handler: the result stays absent, the
    exception is logged and the error message is shown. *)
Theorem query_errors_surface (i : Interaction) (w : World L V) :
  (forall e,
     In (LogError "Exception during Querying" e) (trace (script_run env i w)) ->
     In (StError "Error occured, unable to process response!")
       (trace (script_run env i w))
     /\ ~ In (StInfo "Anschreiben:") (trace (script_run env i w)))
  /\ (In (StInfo "Anschreiben:") (trace (script_run env i w)) ->
      submit_gate env i = true
      /\ (forall text, ~ In (StError text) (trace (script_run env i w)))
      /\ exists answer v2 v3,
           VectorDB.get_response (question_of i) v2 = (Returned (Some answer), v3)
           /\ In (StInfo (result answer)) (trace (script_run env i w)))
  /\ (forall key temperature prompt_mode source a b c s hs (l : L) (v : V)
             t0 e v1,
        query_raises key temperature prompt_mode source (question a b c) v e v1 ->
        exists calls,
          query key temperature prompt_mode source a b c
            (mkWorld s hs (Some (l, v)) t0)
          = (Returned None,
             mkWorld s hs (Some (l, v1))
               (t0 ++ calls
                ++ [LogError "Exception during Querying" e;
                    StError "Error occured, unable to process response!"]))
          /\ forall x, In x calls -> exists call, x = Invoke call).
Proof.
  destruct (script_run_sound i w) as (c & hs & t & l & v & n & Hrun & Hstep).
  rewrite Hrun. simpl.
  destruct Hstep as [cfg logs l0 v0 t1 l1 v1 n1 t2 v2 _ _ Hlogs Hside Hform].
  assert (Hup : forall x, In x t1 ->
            (forall e, x <> LogError "Exception during Querying" e)
            /\ (forall text, x <> StInfo text)
            /\ (forall text, x <> StError text)).
  { intros x Hin.
    destruct Hside as [|? ? ? ? ? ? ? _ Hup]; [contradiction|].
    eapply uploading_entries; eassumption. }
  split; [|split].
  - intros e Hin. apply page_trace_in in Hin.
    destruct Hin as [Hin|[Hin|[Hin|[Hin|[Hin|Hin]]]]]; try discriminate Hin.
    + now destruct (proj1 (logging_entries _ _ Hlogs Hin) e).
    + now destruct (proj1 (Hup _ Hin) e).
    + now destruct (proj1 (info_entries_in _ _ _ Hin) e).
    + destruct (form_step_error _ _ _ _ _ Hform Hin) as [Hshown Hnot].
      split; [apply page_trace_in; auto 7|].
      intros Hanswer. apply page_trace_in in Hanswer.
      destruct Hanswer as [H|[H|[H|[H|[H|H]]]]]; try discriminate H.
      * now destruct (proj1 (proj2 (logging_entries _ _ Hlogs H)) "Anschreiben:").
      * now destruct (proj1 (proj2 (Hup _ H)) "Anschreiben:").
      * now destruct (proj1 (proj2 (info_entries_in _ _ _ H))).
      * contradiction.
  - intros Hin. apply page_trace_in in Hin.
    destruct Hin as [H|[H|[H|[H|[H|H]]]]]; try discriminate H.
    + now destruct (proj1 (proj2 (logging_entries _ _ Hlogs H)) "Anschreiben:").
    + now destruct (proj1 (proj2 (Hup _ H)) "Anschreiben:").
    + now destruct (proj1 (proj2 (info_entries_in _ _ _ H))).
    + destruct (form_step_answer _ _ _ _ Hform H)
        as (Hgate & answer & va & vb & Hresponse & Hshown).
      split; [exact Hgate|]. split.
      * intros text Herr. apply page_trace_in in Herr.
        destruct Herr as [G|[G|[G|[G|[G|G]]]]]; try discriminate G.
        -- now destruct (proj2 (proj2 (logging_entries _ _ Hlogs G)) text).
        -- now destruct (proj2 (proj2 (Hup _ G)) text).
        -- now destruct (proj2 (proj2 (info_entries_in _ _ _ G)) text).
        -- clear - Hform H G.
           assert (Hwarn : forall key x, In x (key_warning key) ->
                     exists text, x = StWarning text).
           { intros key x. unfold key_warning.
             destruct (negb (startswith key "sk-")); intros Hin; members Hin; eauto. }
           destruct Hform as [? _|? ? r ? _ Hquery].
           ++ apply Hwarn in G. destruct G as [x G]. discriminate G.
           ++ apply in_app_or in G. destruct G as [G|G];
                [apply Hwarn in G; destruct G as [x G]; discriminate G|].
              apply in_app_or in H. destruct H as [H|H];
                [apply Hwarn in H; destruct H as [x H]; discriminate H|].
              apply in_inv in G. destruct G as [G|G]; [discriminate G|].
              apply in_inv in H. destruct H as [H|H]; [discriminate H|].
              destruct Hquery; try (simpl in H; intuition discriminate).
              destruct r; simpl in G; intuition discriminate.
      * exists answer, va, vb. split; [exact Hresponse|].
        apply page_trace_in. auto 7.
  - clear. intros key temperature prompt_mode source a b c s hs l v t0 e v1 Hraise.
    unfold query, try_except_else, call_vector_db, bind, say, on_vector_db, ret;
      simpl.
    destruct Hraise as [? H1|? ? H1 H2|? ? ? H1 H2 H3].
    + rewrite H1. simpl.
      exists [Invoke (CreateLlm key temperature)].
      split; [trace_norm; reflexivity|]. intros x Hin. members Hin. eauto.
    + rewrite H1. simpl. rewrite H2. simpl.
      exists [Invoke (CreateLlm key temperature);
              Invoke (CreateChain prompt_mode source)].
      split; [trace_norm; reflexivity|]. intros x Hin. members Hin; eauto.
    + rewrite H1. simpl. rewrite H2. simpl. rewrite H3. simpl.
      exists [Invoke (CreateLlm key temperature);
              Invoke (CreateChain prompt_mode source);
              Invoke (GetResponse (question a b c))].
      split; [trace_norm; reflexivity|]. intros x Hin. members Hin; eauto.
Qed.

(** ** The slider *)




(** ** The upload widget *)

Lemma uploaded_files_allowed (i : Interaction) (f : UploadedFile) :
  In f (uploaded_files i) <-> In f (files_picked i) /\ allowed f = true.
Proof. apply filter_In. Qed.

(** The files of every [get_chunks] of a run are the widget's. *)
Lemma chunked_files (i : Interaction) (w : World L V) (files : list UploadedFile) :
  In (Invoke (GetChunks files)) (trace (script_run env i w)) ->
  upload_gate env i = true /\ files = uploaded_files i.
Proof.
  intros Hin. apply script_run_calls in Hin.
  destruct Hin as [[Hgate [H|[H|(chunks & names & H)]]]|[_ [H|[H|H]]]];
    try discriminate H.
  inversion H. auto.
Qed.

(** ** A query on whatever index there is *)

Lemma query_without_upload (i : Interaction) (w : World L V) :
  upload_gate env i = false ->
  submit_gate env i = true ->
  exists t r v',
    querying (apikey (secrets env)) (temperature_of i)
      "Unrestricted" "Uploaded documents" (question_of i)
      (snd (start_objects env w)) t r v'
    /\ (forall x, In x (trace (script_run env i w)) ->
                  (exists text value, x = LogInfo text value)
                  \/ (exists text, x = SetPageConfig text \/ x = StMarkdown text
                                   \/ x = StWarning text \/ x = StWrite text
                                   \/ x = StSpinner text)
                  \/ In x (info_entries (apikey (secrets env))
                             (VectorDB.document_names (snd (start_objects env w))))
                  \/ In x (t ++ shown r))
    /\ (forall x, In x (t ++ shown r) -> In x (trace (script_run env i w))).
Proof.
  intros Hclosed Hopen.
  destruct (script_run_sound i w) as (c & hs & t & l & v & n & Hrun & Hstep).
  rewrite Hrun. cbn [trace].
  destruct Hstep as [cfg logs l0 v0 t1 l1 v1 n1 t2 v2 Hc Hlv Hlogs Hside Hform].
  rewrite (start_objects_step w cfg l0 v0 Hc Hlv). cbn [snd].
  inversion Hside as [? ? ? _|? ? ? ? ? ? ? Hgate _]; subst; [|congruence].
  inversion Hform as [? Hgate|? tq r ? _ Hquery]; subst; [congruence|].
  exists tq, r, v2. split; [exact Hquery|]. split.
  - intros x Hin. apply page_trace_in in Hin.
    destruct Hin as [H|[H|[H|[H|[H|H]]]]].
    + right. left. eexists. left. exact H.
    + left. rewrite Forall_forall in Hlogs. destruct (Hlogs _ H); eauto.
    + contradiction.
    + right. left. eexists. right. left. exact H.
    + auto.
    + apply in_app_or in H. destruct H as [H|H].
      * right. left. unfold key_warning in H.
        destruct (negb (startswith (apikey (secrets env)) "sk-")); members H.
        eexists. do 2 right. left. symmetry. exact H.
      * apply in_inv in H. destruct H as [H|H]; [|auto].
        right. left. eexists. do 4 right. symmetry. exact H.
  - intros x Hin. apply page_trace_in. do 5 right.
    apply in_or_app. right. right. exact Hin.
Qed.

(** With the submit gate open, the model is made: [create_llm] is called
    with the key and the temperature of the slider. *)
Lemma submitted_query_creates_llm (i : Interaction) (w : World L V) :
  submit_gate env i = true ->
  In (Invoke (CreateLlm (apikey (secrets env)) (temperature_of i)))
    (trace (script_run env i w)).
Proof.
  intros Hopen.
  destruct (script_run_sound i w) as (c & hs & t & l & v & n & Hrun & Hstep).
  rewrite Hrun. cbn [trace].
  destruct Hstep as [cfg logs l0 v0 t1 l1 v1 n1 t2 v2 _ _ _ _ Hform].
  apply page_trace_in. do 5 right.
  destruct Hform as [? Hgate|? ? ? ? _ Hquery]; [congruence|].
  apply in_or_app. right. right. apply in_or_app. left.
  destruct Hquery; simpl; auto.
Qed.

(** An exception that the form logs was raised by one of the three calls
    of the query. *)
Lemma form_step_logged_exception (i : Interaction) (v : V) (t : list Entry)
    (v1 : V) (e : exn) :
  form_step env i v t v1 ->
  In (LogError "Exception during Querying" e) t ->
  query_raises (apikey (secrets env)) (temperature_of i)
    "Unrestricted" "Uploaded documents" (question_of i) v e v1.
Proof.
  assert (Hwarn : forall key x, In x (key_warning key) -> exists text, x = StWarning text).
  { intros key x. unfold key_warning.
    destruct (negb (startswith key "sk-")); intros Hin; members Hin; eauto. }
  intros [? _|? ? r ? _ Hquery] Hin.
  - apply Hwarn in Hin. destruct Hin as [text Hin]. discriminate Hin.
  - apply in_app_or in Hin. destruct Hin as [Hin|Hin];
      [apply Hwarn in Hin; destruct Hin as [text Hin]; discriminate Hin|].
    apply in_inv in Hin. destruct Hin as [Hin|Hin]; [discriminate Hin|].
    apply in_app_or in Hin. destruct Hin as [Hin|Hin];
      [|destruct r; members Hin].
    destruct Hquery as [? ? ? G1|? ? ? ? G1 G2|? ? ? ? ? G1 G2 G3|? ? ? ? ? G1 G2 G3];
      members Hin; inversion Hin; subst;
      first [ eapply raises_at_llm; eassumption
            | eapply raises_at_chain; eassumption
            | eapply raises_at_response; eassumption ].
Qed.

(** The page has one error message. *)
Lemma page_step_error_text (i : Interaction) (w : World L V) (t : list Entry)
    (l : L) (v : V) (n : Z) (text : string) :
  page_step env i w t l v n ->
  In (StError text) t ->
  text = "Error occured, unable to process response!".
Proof.
  intros Hstep Hin.
  destruct Hstep as [cfg logs l0 v0 t1 l1 v1 n1 t2 v2 _ _ Hlogs Hside Hform].
  apply page_trace_in in Hin.
  destruct Hin as [H|[H|[H|[H|[H|H]]]]]; try discriminate H.
  - now destruct (proj2 (proj2 (logging_entries _ _ Hlogs H)) text).
  - destruct Hside as [|? ? ? ? ? ? ? _ Hup]; [contradiction|].
    now destruct (proj2 (proj2 (uploading_entries _ _ _ _ _ _ _ _ _ _ Hup H)) text).
  - now destruct (proj2 (proj2 (info_entries_in _ _ _ H)) text).
  - destruct Hform as [? _|? ? r ? _ Hquery].
    + unfold key_warning in H.
      destruct (negb (startswith (apikey (secrets env)) "sk-")); members H.
    + apply in_app_or in H. destruct H as [H|H].
      * unfold key_warning in H.
        destruct (negb (startswith (apikey (secrets env)) "sk-")); members H.
      * apply in_inv in H. destruct H as [H|H]; [discriminate H|].
        apply in_app_or in H. destruct H as [H|H].
        -- destruct Hquery; members H; now inversion H.
        -- destruct r; members H.
Qed.

(** An exception that a run logs for its query: it was raised by one of
    the three calls, the error message is shown and no answer is. *)
Lemma logged_query_exception (i : Interaction) (w : World L V) (e : exn) :
  In (LogError "Exception during Querying" e) (trace (script_run env i w)) ->
  In (StError "Error occured, unable to process response!")
    (trace (script_run env i w))
  /\ ~ In (StInfo "Anschreiben:") (trace (script_run env i w))
  /\ exists v v1,
       query_raises (apikey (secrets env)) (temperature_of i)
         "Unrestricted" "Uploaded documents" (question_of i) v e v1.
Proof.
  destruct (script_run_sound i w) as (c & hs & t & l & v & n & Hrun & Hstep).
  rewrite Hrun. cbn [trace]. intros Hin.
  destruct Hstep as [cfg logs l0 v0 t1 l1 v1 n1 t2 v2 _ _ Hlogs Hside Hform].
  assert (Hup : forall x, In x t1 ->
            (forall e, x <> LogError "Exception during Querying" e)
            /\ (forall text, x <> StInfo text)
            /\ (forall text, x <> StError text)).
  { intros x Hx.
    destruct Hside as [|? ? ? ? ? ? ? _ Hup]; [contradiction|].
    eapply uploading_entries; eassumption. }
  apply page_trace_in in Hin.
  destruct Hin as [Hin|[Hin|[Hin|[Hin|[Hin|Hin]]]]]; try discriminate Hin.
  - now destruct (proj1 (logging_entries _ _ Hlogs Hin) e).
  - now destruct (proj1 (Hup _ Hin) e).
  - now destruct (proj1 (info_entries_in _ _ _ Hin) e).
  - destruct (form_step_error _ _ _ _ _ Hform Hin) as [Hshown Hnot].
    split; [apply page_trace_in; auto 7|]. split.
    + intros Hanswer. apply page_trace_in in Hanswer.
      destruct Hanswer as [H|[H|[H|[H|[H|H]]]]]; try discriminate H.
      * now destruct (proj1 (proj2 (logging_entries _ _ Hlogs H)) "Anschreiben:").
      * now destruct (proj1 (proj2 (Hup _ H)) "Anschreiben:").
      * now destruct (proj1 (proj2 (info_entries_in _ _ _ H))).
      * contradiction.
    + exists v1, v2. now apply form_step_logged_exception with (t := t2).
Qed.

(** A run without an upload whose query raises: the exception is the one
    logged, with the error message. *)
Lemma raising_query_without_upload (i : Interaction) (w : World L V)
    (e : exn) (v1 : V) :
  upload_gate env i = false ->
  submit_gate env i = true ->
  query_raises (apikey (secrets env)) (temperature_of i)
    "Unrestricted" "Uploaded documents" (question_of i)
    (snd (start_objects env w)) e v1 ->
  In (LogError "Exception during Querying" e) (trace (script_run env i w))
  /\ In (StError "Error occured, unable to process response!")
       (trace (script_run env i w))
  /\ forall text e',
       In (LogError text e') (trace (script_run env i w)) ->
       text = "Exception during Querying" /\ e' = e.
Proof.
  intros Hclosed Hopen Hraise.
  destruct (query_without_upload i w Hclosed Hopen)
    as (t & r & v' & Hquery & Hall & Hsome).
  assert (Hshape : In (LogError "Exception during Querying" e) t
                   /\ In (StError "Error occured, unable to process response!") t
                   /\ r = None
                   /\ forall text e', In (LogError text e') t ->
                                      text = "Exception during Querying" /\ e' = e).
  { destruct Hraise as [? H1|? ? H1 H2|? ? ? H1 H2 H3];
      destruct Hquery as [? ? ? G1|? ? ? ? G1 G2|? ? ? ? ? G1 G2 G3
                         |? ? ? ? ? G1 G2 G3];
      try congruence;
      repeat match goal with
             | A : ?f = (Returned tt, ?x), B : ?f = (Returned tt, ?y) |- _ =>
                 assert (x = y) by congruence; subst y; clear B
             end;
      try congruence.
    all: match goal with
         | A : ?f = (Raised ?x, _), B : ?f = (Raised ?y, _) |- _ =>
             assert (x = y) by congruence; subst y
         end.
    all: split; [simpl; auto 6|]; split; [simpl; auto 6|];
      split; [reflexivity|];
      intros text e' Hin; members Hin; inversion Hin; auto. }
  destruct Hshape as (Hlog & Herr & -> & Honly).
  split; [apply Hsome, in_or_app; left; exact Hlog|].
  split; [apply Hsome, in_or_app; left; exact Herr|].
  intros text e' Hin. apply Hall in Hin.
  destruct Hin as [(a & b & H)|[(a & [H|[H|[H|[H|H]]]])|[H|H]]];
    try discriminate H.
  - unfold info_entries in H.
    destruct (negb (startswith (apikey (secrets env)) "sk-")
              || (apikey (secrets env) =? "NA")); members H.
  - rewrite app_nil_r in H. now apply Honly.
Qed.

(** C2, as the page has it: a submitted query is not checked for
    readiness.  With the submit gate open (the button and a key that
    starts with [sk-]), [create_llm] is called, whatever the index holds;
    in a run without an upload the three calls of the query act on the
    vector database as the run found it, whatever its document names, and
    when they return, the question was asked, no error is logged, and a
    truthy result is shown as the answer.  The page raises no [NotReady] of
    its own: when one of the three calls raises on that database, the
    exception it raised is logged, and no other, and the error message is
    shown; in every run an exception logged for the query was raised by
    one of the three calls and comes with the error message and without an
    answer; and the page has one error message. *)
Theorem query_on_any_index (i : Interaction) (w : World L V) :
  submit_gate env i = true ->
  In (Invoke (CreateLlm (apikey (secrets env)) (temperature_of i)))
    (trace (script_run env i w))
  /\ (upload_gate env i = false ->
      forall v1 v2 r v3,
        VectorDB.create_llm (apikey (secrets env)) (temperature_of i)
          (snd (start_objects env w)) = (Returned tt, v1) ->
        VectorDB.create_chain "Unrestricted" "Uploaded documents" v1
        = (Returned tt, v2) ->
        VectorDB.get_response (question_of i) v2 = (Returned r, v3) ->
        In (Invoke (GetResponse (question_of i))) (trace (script_run env i w))
        /\ (forall text e, ~ In (LogError text e) (trace (script_run env i w)))
        /\ (forall answer,
              r = Some answer ->
              In (StInfo "Anschreiben:") (trace (script_run env i w))
              /\ In (StInfo (result answer)) (trace (script_run env i w))))
  /\ (upload_gate env i = false ->
      forall e v1,
        query_raises (apikey (secrets env)) (temperature_of i)
          "Unrestricted" "Uploaded documents" (question_of i)
          (snd (start_objects env w)) e v1 ->
        In (LogError "Exception during Querying" e) (trace (script_run env i w))
        /\ In (StError "Error occured, unable to process response!")
             (trace (script_run env i w))
        /\ ~ In (StInfo "Anschreiben:") (trace (script_run env i w))
        /\ (forall text e',
              In (LogError text e') (trace (script_run env i w)) ->
              text = "Exception during Querying" /\ e' = e))
  /\ (forall e,
        In (LogError "Exception during Querying" e) (trace (script_run env i w)) ->
        In (StError "Error occured, unable to process response!")
          (trace (script_run env i w))
        /\ ~ In (StInfo "Anschreiben:") (trace (script_run env i w))
        /\ exists v v1,
             query_raises (apikey (secrets env)) (temperature_of i)
               "Unrestricted" "Uploaded documents" (question_of i) v e v1)
  /\ (forall text,
        In (StError text) (trace (script_run env i w)) ->
        text = "Error occured, unable to process response!").
Proof.
  intros Hopen. split; [now apply submitted_query_creates_llm|].
  split; [|split; [|split]].
  2: { intros Hclosed e v1 Hraise.
       destruct (raising_query_without_upload i w e v1 Hclosed Hopen Hraise)
         as (Hlog & Herr & Honly).
       split; [exact Hlog|]. split; [exact Herr|]. split; [|exact Honly].
       exact (proj1 (proj2 (logged_query_exception i w e Hlog))). }
  2: { intros e. apply logged_query_exception. }
  2: { intros text.
       destruct (script_run_sound i w) as (c & hs & t & l & v & n & Hrun & Hstep).
       rewrite Hrun. cbn [trace]. now apply page_step_error_text with (1 := Hstep). }
  intros Hclosed v1 v2 r' v3 H1 H2 H3.
  destruct (query_without_upload i w Hclosed Hopen)
    as (t & r & v' & Hquery & Hall & Hsome).
  assert (Hshape : t = [Invoke (CreateLlm (apikey (secrets env)) (temperature_of i));
                        Invoke (CreateChain "Unrestricted" "Uploaded documents");
                        Invoke (GetResponse (question_of i))] /\ r = r').
  { destruct Hquery as [? ? ? G1|? ? ? ? G1 G2|? ? ? ? ? G1 G2 G3|? ? ? ? ? G1 G2 G3].
    - congruence.
    - rewrite H1 in G1. inversion G1; subst. congruence.
    - rewrite H1 in G1. inversion G1; subst.
      rewrite H2 in G2. inversion G2; subst. congruence.
    - rewrite H1 in G1. inversion G1; subst.
      rewrite H2 in G2. inversion G2; subst.
      rewrite H3 in G3. inversion G3; subst. auto. }
  destruct Hshape as [-> ->]. split; [|split].
  - apply Hsome. simpl. auto.
  - intros text e Hin. apply Hall in Hin.
    destruct Hin as [(a & b & H)|[(a & [H|[H|[H|[H|H]]]])|[H|H]]];
      try discriminate H.
    + unfold info_entries in H.
      destruct (negb (startswith (apikey (secrets env)) "sk-")
                || (apikey (secrets env) =? "NA")); members H.
    + destruct r'; members H.
  - intros answer ->. split; apply Hsome; simpl; auto 8.
Qed.

(** C7, as the page has it: the extensions are checked by the upload
    widget, before the Chunker.  The widget takes a picked file exactly when
    its extension is one of pdf, txt, docx and srt; every call of
    [get_chunks] of a run gets the files the widget took, so every file the
    Chunker is handed has one of the four extensions; and with the gate of
    the upload open these files are handed to it. *)
Theorem extensions_checked_by_widget (i : Interaction) (w : World L V) :
  (forall f, In f (uploaded_files i) <-> In f (files_picked i) /\ allowed f = true)
  /\ (forall files f,
        In (Invoke (GetChunks files)) (trace (script_run env i w)) ->
        In f files ->
        In f (files_picked i) /\ allowed f = true)
  /\ (upload_gate env i = true ->
      In (Invoke (GetChunks (uploaded_files i))) (trace (script_run env i w))).
Proof.
  split; [exact (uploaded_files_allowed i)|]. split.
  - intros files f Hcall Hin. apply chunked_files in Hcall.
    destruct Hcall as [_ ->]. now apply uploaded_files_allowed.
  - intros Hgate.
    destruct (script_run_sound i w) as (c & hs & t & l & v & n & Hrun & Hstep).
    rewrite Hrun. cbn [trace].
    destruct Hstep as [cfg logs l0 v0 t1 l1 v1 n1 t2 v2 _ _ _ Hside _].
    apply page_trace_in. right. right. left.
    inversion Hside as [? ? ? Hclosed|? ? ? ? ? ? ? _ Hup]; subst; [congruence|].
    destruct Hup; simpl; auto.
Qed.

(** ** An exception in the upload *)

(** An exception of [get_chunks] ends the upload of the run: it is logged,
    the status is the error, the other two calls are not made, no names are
    logged, and the counter stays. *)
Lemma chunking_exception_aborts (i : Interaction) (w : World L V)
    (e : exn) (l1 : L) :
  upload_gate env i = true ->
  InfoLoader.get_chunks (uploaded_files i) (fst (start_objects env w))
  = (Raised e, l1) ->
  In (LogError "Exception during Splitting / embedding" e)
    (trace (script_run env i w))
  /\ In (StatusUpdate "Error occured." "error") (trace (script_run env i w))
  /\ completed (trace (script_run env i w)) = false
  /\ (forall c, In (Invoke c) (trace (script_run env i w)) ->
                is_ingestion c = true -> c = GetChunks (uploaded_files i))
  /\ counter (script_run env i w) = counter w
  /\ the_loader (script_run env i w) = Some l1.
Proof.
  intros Hgate Hraise.
  pose proof (script_run_calls i w) as Hcalls.
  destruct (script_run_sound i w) as (c & hs & t & l & v & n & Hrun & Hstep).
  rewrite Hrun in *. unfold counter at 1, the_loader. cbn [trace session_state
    usage_counter resources option_map fst].
  destruct (page_step_upload _ _ _ _ _ _ Hstep)
    as [(_ & _ & v3 & _ & vb & G1 & _)|(Hdone & Hn & _)]; [congruence|].
  destruct Hstep as [cfg logs l0 v0 t1 l2 v1 n1 t2 v2 Hc Hlv Hlogs Hside Hform].
  rewrite (start_objects_step w cfg l0 v0 Hc Hlv) in Hraise. cbn [fst] in Hraise.
  inversion Hside as [? ? ? Hclosed|? ? ? ? ? ? ? _ Hup]; subst; [congruence|].
  assert (Hshape : t1 = [ StStatus "Lade hoch (das kann einen Moment dauern)...)";
                          StWrite "Dokumente werden verarbeitet...";
                          Invoke (GetChunks (uploaded_files i));
                          LogError "Exception during Splitting / embedding" e;
                          StatusUpdate "Error occured." "error" ]
                   /\ l2 = l1).
  { destruct Hup; try congruence. split; congruence. }
  destruct Hshape as [-> ->].
  split; [apply page_trace_in; simpl; auto 8|].
  split; [apply page_trace_in; simpl; auto 9|].
  split; [exact Hdone|]. split; [|auto].
  intros call Hin Hcall. apply page_trace_in in Hin.
  destruct Hin as [H|[H|[H|[H|[H|H]]]]]; try discriminate H.
  - now apply logging_not_call in H.
  - members H. now inversion H.
  - now apply info_entries_not_call in H.
  - assert (Hquery : In (Invoke call) (trace (script_run env i w))).
    { rewrite Hrun. cbn [trace]. apply page_trace_in. auto 7. }
    clear - Hform H Hcall.
    destruct Hform as [? _|? ? r ? _ Hquery].
    + now apply key_warning_not_call in H.
    + apply in_app_or in H. destruct H as [H|H];
        [now apply key_warning_not_call in H|].
      apply in_inv in H. destruct H as [H|H]; [discriminate H|].
      apply in_app_or in H. destruct H as [H|H];
        [|now apply shown_not_call in H].
      destruct (querying_calls _ _ _ _ _ _ _ _ _ _ Hquery H) as [->|[->| ->]];
        discriminate Hcall.
Qed.

(** The names a run logs are the document names of the loader after an
    upload that went through. *)
Lemma logged_names (i : Interaction) (w : World L V) (text : string)
    (names : list string) :
  In (LogInfo text (NamesValue names)) (trace (script_run env i w)) ->
  completed (trace (script_run env i w)) = true
  /\ exists l', the_loader (script_run env i w) = Some l'
                /\ names = InfoLoader.document_names l'.
Proof.
  destruct (script_run_sound i w) as (c & hs & t & l & v & n & Hrun & Hstep).
  rewrite Hrun. unfold the_loader. cbn [trace resources option_map fst].
  intros Hin.
  destruct (page_step_upload _ _ _ _ _ _ Hstep) as [(Hdone & _)|(Hdone & _)].
  - split; [exact Hdone|]. exists l. split; [reflexivity|].
    destruct Hstep as [cfg logs l0 v0 t1 l1 v1 n1 t2 v2 _ _ Hlogs Hside Hform].
    apply page_trace_in in Hin.
    destruct Hin as [H|[H|[H|[H|[H|H]]]]]; try discriminate H.
    + rewrite Forall_forall in Hlogs. destruct (Hlogs _ H) as [G|G]; discriminate G.
    + destruct Hside as [|? ? ? ? ? ? ? _ Hup]; [contradiction|].
      destruct Hup; members H. now inversion H.
    + unfold info_entries in H.
      destruct (negb (startswith (apikey (secrets env)) "sk-")
                || (apikey (secrets env) =? "NA")); members H.
    + exfalso. clear - Hform H.
      destruct Hform as [? _|? ? r ? _ Hquery].
      * unfold key_warning in H.
        destruct (negb (startswith (apikey (secrets env)) "sk-")); members H.
      * apply in_app_or in H. destruct H as [H|H].
        -- unfold key_warning in H.
           destruct (negb (startswith (apikey (secrets env)) "sk-")); members H.
        -- apply in_inv in H. destruct H as [H|H]; [discriminate H|].
           apply in_app_or in H. destruct H as [H|H].
           ++ destruct Hquery; members H.
           ++ destruct r; members H.
  - exfalso.
    destruct Hstep as [cfg logs l0 v0 t1 l1 v1 n1 t2 v2 _ _ Hlogs Hside Hform].
    assert (Ht1 : completed t1 = false).
    { revert Hdone.
      change (SetPageConfig "Bewerbungsbot " :: logs ++ ?y)
        with ([SetPageConfig "Bewerbungsbot "] ++ logs ++ y).
      rewrite !completed_app. intros Hdone.
      apply orb_false_iff in Hdone. destruct Hdone as [_ Hdone].
      apply orb_false_iff in Hdone. destruct Hdone as [_ Hdone].
      apply orb_false_iff in Hdone. now destruct Hdone. }
    apply page_trace_in in Hin.
    destruct Hin as [H|[H|[H|[H|[H|H]]]]]; try discriminate H.
    + rewrite Forall_forall in Hlogs. destruct (Hlogs _ H) as [G|G]; discriminate G.
    + destruct Hside as [|? ? ? ? ? ? ? _ Hup]; [contradiction|].
      destruct Hup; members H. discriminate Ht1.
    + unfold info_entries in H.
      destruct (negb (startswith (apikey (secrets env)) "sk-")
                || (apikey (secrets env) =? "NA")); members H.
    + clear - Hform H.
      destruct Hform as [? _|? ? r ? _ Hquery].
      * unfold key_warning in H.
        destruct (negb (startswith (apikey (secrets env)) "sk-")); members H.
      * apply in_app_or in H. destruct H as [H|H].
        -- unfold key_warning in H.
           destruct (negb (startswith (apikey (secrets env)) "sk-")); members H.
        -- apply in_inv in H. destruct H as [H|H]; [discriminate H|].
           apply in_app_or in H. destruct H as [H|H].
           ++ destruct Hquery; members H.
           ++ destruct r; members H.
Qed.

(** After an upload that went through, the run leaves the database that
    the form leaves from the initialized one, and the info bar shows the
    names of the initialized one. *)
Lemma page_step_completed (i : Interaction) (w : World L V) (t : list Entry)
    (l : L) (v : V) (n : Z) :
  page_step env i w t l v n ->
  completed t = true ->
  exists v2 t2,
    ingests env i w l v2
    /\ form_step env i v2 t2 v
    /\ forall x, In x (info_entries (apikey (secrets env))
                        (VectorDB.document_names v2)) -> In x t.
Proof.
  intros Hstep Hdone.
  destruct (page_step_upload _ _ _ _ _ _ Hstep)
    as [(_ & _ & va & _ & vb & G1 & G2 & G3)|(Hnot & _)]; [|congruence].
  destruct Hstep as [cfg logs l0 v0 t1 l1 v1 n1 t2 v2 Hc Hlv Hlogs Hside Hform].
  pose proof (start_objects_step w cfg l0 v0 Hc Hlv) as Hstart.
  rewrite Hstart in G1, G2. cbn [fst snd] in G1, G2.
  inversion Hside as [? ? ? Hgate|? ? ? ? ? ? ? Hgate Hup]; subst.
  - exfalso. revert Hdone.
    change (SetPageConfig "Bewerbungsbot " :: logs ++ ?y)
      with ([SetPageConfig "Bewerbungsbot "] ++ logs ++ y).
    change (StMarkdown ?m :: ?y) with ([StMarkdown m] ++ y).
    rewrite !completed_app, (logging_not_completed logs Hlogs),
      info_entries_not_completed, (form_step_not_completed _ _ _ _ Hform).
    discriminate.
  - exists v1, t2. split; [|split].
    + split; [exact Hgate|]. rewrite Hstart. cbn [fst snd].
      destruct Hup as [? ? ? ? ? H1|? ? ? ? ? ? H1 H2|? ? ? ? ? ? ? H1 H2 H3
                      |? ? ? ? ? ? H1 H2 H3]; try congruence.
      eauto.
    + exact Hform.
    + intros x Hin. apply page_trace_in. auto 7.
Qed.

(** A run whose upload went through logs no exception of the upload. *)
Lemma completed_no_upload_error (i : Interaction) (w : World L V) (e : exn) :
  completed (trace (script_run env i w)) = true ->
  ~ In (LogError "Exception during Splitting / embedding" e)
      (trace (script_run env i w)).
Proof.
  destruct (script_run_sound i w) as (c & hs & t & l & v & n & Hrun & Hstep).
  rewrite Hrun. cbn [trace]. intros Hdone Hin.
  destruct Hstep as [cfg logs l0 v0 t1 l1 v1 n1 t2 v2 _ _ Hlogs Hside Hform].
  apply page_trace_in in Hin.
  destruct Hin as [H|[H|[H|[H|[H|H]]]]]; try discriminate H.
  - rewrite Forall_forall in Hlogs. destruct (Hlogs _ H) as [G|G]; discriminate G.
  - assert (Ht1 : completed t1 = true).
    { revert Hdone.
      change (SetPageConfig "Bewerbungsbot " :: logs ++ ?y)
        with ([SetPageConfig "Bewerbungsbot "] ++ logs ++ y).
      change (StMarkdown ?m :: ?y) with ([StMarkdown m] ++ y).
      rewrite !completed_app, (logging_not_completed logs Hlogs),
        info_entries_not_completed, (form_step_not_completed _ _ _ _ Hform).
      simpl. now rewrite orb_false_r. }
    destruct Hside as [|? ? ? ? ? ? ? _ Hup]; [contradiction|].
    destruct Hup; members H; discriminate Ht1.
  - unfold info_entries in H.
    destruct (negb (startswith (apikey (secrets env)) "sk-")
              || (apikey (secrets env) =? "NA")); members H.
  - clear - Hform H.
    destruct Hform as [? _|? ? r ? _ Hquery].
    + unfold key_warning in H.
      destruct (negb (startswith (apikey (secrets env)) "sk-")); members H.
    + apply in_app_or in H. destruct H as [H|H].
      * unfold key_warning in H.
        destruct (negb (startswith (apikey (secrets env)) "sk-")); members H.
      * apply in_inv in H. destruct H as [H|H]; [discriminate H|].
        apply in_app_or in H. destruct H as [H|H].
        -- destruct Hquery; members H.
        -- destruct r; members H.
Qed.

(** A run whose [ingests] holds: its upload went through. *)
Lemma ingests_completed (i : Interaction) (w : World L V) (l1 : L) (v2 : V) :
  ingests env i w l1 v2 ->
  completed (trace (script_run env i w)) = true
  /\ the_loader (script_run env i w) = Some l1.
Proof.
  intros Hin.
  destruct (script_run_sound i w) as (c & hs & t & l & v & n & Hrun & Hstep).
  rewrite Hrun. unfold the_loader. cbn [trace resources option_map fst].
  destruct (page_step_upload _ _ _ _ _ _ Hstep)
    as [(Hdone & _ & va & _ & vb & G1 & _)|(_ & _ & Hnot)].
  - split; [exact Hdone|]. destruct Hin as (_ & vc & H1 & _). congruence.
  - now destruct (Hnot _ _ Hin).
Qed.

End PageFacts.

(** * The page on the collaborators of the specification *)

Section PipelineFacts.

Variable extract : Pipeline.Format -> string -> option string.
Variable split : string -> list string.
Variable key_accepted : string -> bool.
Variable similarity : string -> string -> Q.
Variable complete : Q -> string -> outcome string.
Variable k : nat.
Variable env : Environment.

Local Abbreviation the_loader_class := (Pipeline.loader extract split).
Local Abbreviation the_database_class :=
  (Pipeline.vector_db key_accepted similarity complete k).
Local Abbreviation run := (pipeline_run extract split key_accepted similarity complete k env).
Local Abbreviation chunk := (Pipeline.chunk extract split).
Local Abbreviation chunk_file := (Pipeline.chunk_file extract split).
Local Abbreviation chunk_names := (Pipeline.chunk_names extract split).

(** ** The Chunker *)

Lemma unique_in (x : string) (ids : list string) :
  In x (Pipeline.unique ids) <-> In x ids.
Proof.
  induction ids as [|y ids IH]; simpl; [tauto|].
  rewrite filter_In, IH, negb_true_iff, String.eqb_neq.
  destruct (string_dec y x) as [->|Hne]; [tauto|].
  intuition congruence.
Qed.

Lemma chunk_read_in (files : list UploadedFile) (f : UploadedFile)
    (segments : list Segment) :
  In f files -> chunk_file f = inr segments ->
  In (name f) (snd (fst (chunk files))).
Proof.
  induction files as [|g files IH]; simpl; [tauto|].
  intros [->|Hin] Hread.
  - destruct (chunk files) as [[ss ns] es]. rewrite Hread. simpl. auto.
  - specialize (IH Hin Hread).
    destruct (chunk files) as [[ss ns] es].
    destruct (chunk_file g); simpl in *; auto.
Qed.

Lemma chunk_failed_in (files : list UploadedFile) (f : UploadedFile) (e : exn) :
  In f files -> chunk_file f = inl e -> In e (snd (chunk files)).
Proof.
  induction files as [|g files IH]; simpl; [tauto|].
  intros [->|Hin] Hfail.
  - destruct (chunk files) as [[ss ns] es]. rewrite Hfail. simpl. auto.
  - specialize (IH Hin Hfail).
    destruct (chunk files) as [[ss ns] es].
    destruct (chunk_file g); simpl in *; auto.
Qed.

(** Every name the Chunker gives is the name of a file it read. *)
Lemma chunk_names_read (files : list UploadedFile) (n : string) :
  In n (chunk_names files) ->
  exists f segments, In f files /\ name f = n /\ chunk_file f = inr segments.
Proof.
  unfold Pipeline.chunk_names. rewrite unique_in.
  induction files as [|g files IH]; simpl; [tauto|].
  destruct (chunk files) as [[ss ns] es].
  destruct (chunk_file g) as [e|segments] eqn:Hg; simpl in *.
  - intros Hin. destruct (IH Hin) as (f & s & Hf & Hn & Hs). eauto 6.
  - intros [<-|Hin]; [eauto 6|].
    destruct (IH Hin) as (f & s & Hf & Hn & Hs). eauto 6.
Qed.

Lemma get_chunks_result (files : list UploadedFile) (l l1 : Pipeline.Loader)
    (o : outcome unit) :
  @InfoLoader.get_chunks _ the_loader_class files l = (o, l1) ->
  o = Returned tt
  /\ Pipeline.document_chunks_full l1 = fst (fst (chunk files))
  /\ Pipeline.document_names l1 = chunk_names files
  /\ Pipeline.failed l1 = snd (chunk files).
Proof.
  simpl. unfold Pipeline.get_chunks, Pipeline.chunk_names.
  destruct (chunk files) as [[ss ns] es]. intros H. inversion H. simpl. auto.
Qed.

(** ** The vector database *)

Lemma initialize_database_result (segments : list Segment) (names : list string)
    (s s1 : Pipeline.Store) :
  Pipeline.initialize_database key_accepted segments names s = (Returned tt, s1) ->
  Pipeline.index s1 = segments /\ Pipeline.names s1 = names.
Proof.
  unfold Pipeline.initialize_database.
  destruct (Pipeline.embedding_function s) as [key|]; [|discriminate].
  destruct (key_accepted key); [|discriminate].
  intros H. inversion H. simpl. auto.
Qed.

(** The three calls of a query leave the index as it is. *)
Lemma querying_keeps_index (key : string) (temperature : Q)
    (prompt_mode source asked : string) (v : Pipeline.Store) (t : list Entry)
    (r : option Response) (v1 : Pipeline.Store) :
  @querying _ the_database_class key temperature prompt_mode source asked v t r v1 ->
  Pipeline.index v1 = Pipeline.index v /\ Pipeline.names v1 = Pipeline.names v.
Proof.
  assert (Hllm : forall o s s1,
            Pipeline.create_llm key temperature s = (o, s1) ->
            Pipeline.index s1 = Pipeline.index s
            /\ Pipeline.names s1 = Pipeline.names s).
  { intros o s s1. unfold Pipeline.create_llm.
    destruct (Pipeline.in_range temperature); intros H; inversion H; simpl; auto. }
  assert (Hchain : forall o s s1,
            Pipeline.create_chain prompt_mode source s = (o, s1) ->
            Pipeline.index s1 = Pipeline.index s
            /\ Pipeline.names s1 = Pipeline.names s).
  { intros o s s1. unfold Pipeline.create_chain.
    intros H; inversion H; simpl; auto. }
  assert (Hresponse : forall o s s1,
            Pipeline.get_response key_accepted similarity complete k asked s
            = (o, s1) -> s1 = s).
  { intros o s s1. unfold Pipeline.get_response.
    destruct (Pipeline.llm s) as [[a b]|]; [|intros H; now inversion H].
    destruct (Pipeline.chain s) as [[c d]|]; [|intros H; now inversion H].
    destruct (key_accepted a); [|intros H; now inversion H].
    destruct (complete b _); intros H; now inversion H. }
  intros Hquery.
  destruct Hquery as [? ? ? H1|? ? ? ? H1 H2|? ? ? ? ? H1 H2 H3|? ? ? ? ? H1 H2 H3];
    simpl in *.
  - now apply Hllm in H1.
  - apply Hllm in H1. apply Hchain in H2. destruct H1, H2. split; congruence.
  - apply Hllm in H1. apply Hchain in H2. apply Hresponse in H3. subst.
    destruct H1, H2. split; congruence.
  - apply Hllm in H1. apply Hchain in H2. apply Hresponse in H3. subst.
    destruct H1, H2. split; congruence.
Qed.

Lemma form_step_keeps_index (i : Interaction) (v : Pipeline.Store)
    (t : list Entry) (v1 : Pipeline.Store) :
  @form_step _ the_database_class env i v t v1 ->
  Pipeline.index v1 = Pipeline.index v /\ Pipeline.names v1 = Pipeline.names v.
Proof.
  intros [? _|? ? ? ? _ Hquery]; [auto|].
  eapply querying_keeps_index. exact Hquery.
Qed.

(** After a run whose upload went through, the document names of the index
    are the names that chunking this upload gave. *)
Lemma completed_run_names (i : Interaction)
    (w : World Pipeline.Loader Pipeline.Store) :
  completed (trace (run i w)) = true ->
  exists v',
    the_vector_db (run i w) = Some v'
    /\ Pipeline.names v' = chunk_names (uploaded_files i).
Proof.
  unfold pipeline_run.
  destruct (@script_run_sound _ _ the_loader_class the_database_class env i w)
    as (c & hs & t & l & v & n & Hrun & Hstep).
  rewrite Hrun. unfold the_vector_db. cbn [trace resources option_map snd].
  intros Hdone.
  destruct (page_step_completed _ _ _ _ _ _ _ Hstep Hdone)
    as (v2 & t2 & (_ & v1 & H1 & _ & H3) & Hform & _).
  apply get_chunks_result in H1. destruct H1 as (_ & _ & Hnames & _).
  simpl in H3. apply initialize_database_result in H3.
  apply form_step_keeps_index in Hform.
  exists v. split; [reflexivity|]. destruct H3, Hform. congruence.
Qed.

(** C1: on the collaborators of the specification, after every run whose
    upload went through, the index holds exactly the segments, and its
    document names are exactly the names, that chunking the files of this
    upload gives, whatever the index held before the run, so also after an
    earlier upload of other documents; the info bar of the run shows these
    names. *)
Theorem reingest_replaces_index (i : Interaction)
    (w : World Pipeline.Loader Pipeline.Store) :
  completed (trace (run i w)) = true ->
  exists v',
    the_vector_db (run i w) = Some v'
    /\ Pipeline.names v' = chunk_names (uploaded_files i)
    /\ Pipeline.index v' = fst (fst (chunk (uploaded_files i)))
    /\ In (StInfo ("Hochgeladene Dokumente: " ++ newline ++ newline ++ " "
                   ++ doc_name_display (chunk_names (uploaded_files i))))
         (trace (run i w)).
Proof.
  unfold pipeline_run.
  destruct (@script_run_sound _ _ the_loader_class the_database_class env i w)
    as (c & hs & t & l & v & n & Hrun & Hstep).
  rewrite Hrun. unfold the_vector_db. cbn [trace resources option_map snd].
  intros Hdone.
  destruct (page_step_completed _ _ _ _ _ _ _ Hstep Hdone)
    as (v2 & t2 & (_ & v1 & H1 & _ & H3) & Hform & Hinfo).
  apply get_chunks_result in H1. destruct H1 as (_ & Hchunks & Hnames & _).
  simpl in H3. apply initialize_database_result in H3.
  destruct H3 as [Hindex Hstored].
  apply form_step_keeps_index in Hform. destruct Hform as [Hi Hn].
  exists v. split; [reflexivity|]. split; [congruence|]. split; [congruence|].
  apply Hinfo. unfold info_entries. left.
  simpl VectorDB.document_names. now rewrite Hstored, Hnames.
Qed.

(** ** Failures of single files *)

(** With a key the provider accepts, the upload of a run goes through. *)
Lemma pipeline_ingests (i : Interaction)
    (w : World Pipeline.Loader Pipeline.Store) :
  upload_gate env i = true ->
  key_accepted (apikey (secrets env)) = true ->
  exists l1 v2,
    @ingests _ _ the_loader_class the_database_class env i w l1 v2.
Proof.
  intros Hgate Hkey. unfold ingests.
  destruct (@InfoLoader.get_chunks _ the_loader_class (uploaded_files i)
              (fst (@start_objects _ _ the_loader_class the_database_class env w)))
    as [o l1] eqn:H1.
  destruct (get_chunks_result _ _ _ _ H1) as (-> & _).
  exists l1. eexists. split; [exact Hgate|]. eexists. split; [reflexivity|].
  split; [reflexivity|].
  simpl. unfold Pipeline.initialize_database, Pipeline.create_embedding_function.
  simpl. rewrite Hkey. reflexivity.
Qed.

(** C4, as the page has it.  On the Chunker of the specification a file
    that cannot be read does not stop the batch: with a key the provider
    accepts the upload goes through, the files that were read are in the
    index and the failure is in the side list of the loader; but the page
    does not read that list: the names it logs are names of files that were
    read, and it logs no exception of the upload.  And on any collaborators,
    an exception that [get_chunks] raises ends the upload of the whole
    batch: the exception is logged, the status is 'Error occured.', neither
    the embedding function nor the index is made, and the counter stays. *)
Theorem partial_failure_in_page :
  (forall (i : Interaction) (w : World Pipeline.Loader Pipeline.Store),
     upload_gate env i = true ->
     key_accepted (apikey (secrets env)) = true ->
     completed (trace (run i w)) = true
     /\ (forall e, ~ In (LogError "Exception during Splitting / embedding" e)
                      (trace (run i w)))
     /\ (forall text names n,
           In (LogInfo text (NamesValue names)) (trace (run i w)) ->
           In n names ->
           exists g segments,
             In g (uploaded_files i) /\ name g = n
             /\ chunk_file g = inr segments)
     /\ exists l' v',
          the_loader (run i w) = Some l'
          /\ the_vector_db (run i w) = Some v'
          /\ (forall g segments,
                In g (uploaded_files i) -> chunk_file g = inr segments ->
                In (name g) (Pipeline.names v'))
          /\ (forall f e,
                In f (uploaded_files i) -> chunk_file f = inl e ->
                In e (Pipeline.failed l')))
  /\ (forall (L V : Type) (IL : InfoLoader.t L) (VD : VectorDB.t V)
             (i : Interaction) (w : World L V) (e : exn) (l1 : L),
        upload_gate env i = true ->
        InfoLoader.get_chunks (uploaded_files i) (fst (start_objects env w))
        = (Raised e, l1) ->
        In (LogError "Exception during Splitting / embedding" e)
          (trace (script_run env i w))
        /\ In (StatusUpdate "Error occured." "error") (trace (script_run env i w))
        /\ completed (trace (script_run env i w)) = false
        /\ (forall c, In (Invoke c) (trace (script_run env i w)) ->
                      is_ingestion c = true -> c = GetChunks (uploaded_files i))
        /\ counter (script_run env i w) = counter w
        /\ the_loader (script_run env i w) = Some l1).
Proof.
  split; [|intros; now apply chunking_exception_aborts].
  intros i w Hgate Hkey.
  destruct (pipeline_ingests i w Hgate Hkey) as (l1 & v2 & Hin).
  destruct (ingests_completed _ _ _ _ _ Hin) as [Hdone Hloader].
  fold (run i w) in Hdone, Hloader.
  destruct (completed_run_names i w Hdone) as (v' & Hv' & Hnames).
  destruct Hin as (_ & v1 & H1 & _).
  apply get_chunks_result in H1. destruct H1 as (_ & _ & Hl1 & Hfailed).
  split; [exact Hdone|]. split; [|split].
  - intros e. now apply completed_no_upload_error.
  - intros text names n Hlog Hn.
    destruct (logged_names _ _ _ _ _ Hlog) as (_ & l' & Hl' & ->).
    fold (run i w) in Hl'. rewrite Hloader in Hl'. inversion Hl'; subst l'.
    simpl in Hn. rewrite Hl1 in Hn. now apply chunk_names_read.
  - exists l1, v'. split; [exact Hloader|]. split; [exact Hv'|]. split.
    + intros g segments Hg Hread. rewrite Hnames.
      unfold Pipeline.chunk_names. apply unique_in.
      eapply chunk_read_in; eassumption.
    + intros f e Hf Hfail. rewrite Hfailed.
      eapply chunk_failed_in; eassumption.
Qed.

(** ** The temperature *)



End PipelineFacts.

(** * Runs on the bench *)

Ltac pick_member := simpl; repeat (first [left; reflexivity | right]).

Lemma reingest_replaces_index_witness :
  completed
    (trace (Bench.run (Bench.uploads [Bench.cv])
              (Bench.run (Bench.uploads [Bench.cv; Bench.posting]) Bench.fresh)))
  = true
  /\ exists v',
       the_vector_db
         (Bench.run (Bench.uploads [Bench.cv])
            (Bench.run (Bench.uploads [Bench.cv; Bench.posting]) Bench.fresh))
       = Some v'
       /\ Pipeline.names v' = ["cv.pdf"].
Proof.
  split; [vm_compute; reflexivity|].
  destruct (reingest_replaces_index Bench.extract Bench.split Bench.key_accepted
              Bench.similarity Bench.complete 3 Bench.env
              (Bench.uploads [Bench.cv])
              (Bench.run (Bench.uploads [Bench.cv; Bench.posting]) Bench.fresh))
    as (v' & Hv' & Hnames & _); [vm_compute; reflexivity|].
  exists v'. split; [exact Hv'|]. rewrite Hnames. reflexivity.
Defined.

(** The page asks the chain on an empty index: the guard of the
    specification does not hold for the first query of a process. *)
Lemma query_runs_on_empty_index :
  ~ @not_ready_guard _ _ Bench.loader Bench.vector_db Bench.env
      (Bench.submits None) Bench.fresh.
Proof.
  intros Hguard.
  destruct Hguard as [_ Hnone]; try reflexivity.
  apply (Hnone (question instructions_value information_value prompt_value)).
  vm_compute. pick_member.
Qed.

Lemma query_on_any_index_witness :
  submit_gate Bench.env (Bench.submits None) = true
  /\ upload_gate Bench.env (Bench.submits None) = false
  /\ @VectorDB.document_names _ Bench.vector_db
       (snd (@start_objects _ _ Bench.loader Bench.vector_db Bench.env Bench.fresh))
     = []
  /\ In (Invoke (CreateLlm "sk-host" 1))
       (trace (Bench.run (Bench.submits None) Bench.fresh))
  /\ In (StInfo "Anschreiben:")
       (trace (Bench.run (Bench.submits None) Bench.fresh)).
Proof.
  split; [reflexivity|]. split; [reflexivity|]. split; [reflexivity|].
  destruct (@query_on_any_index _ _ Bench.loader Bench.vector_db Bench.env
              (Bench.submits None) Bench.fresh eq_refl) as (Hllm & Hrest & _).
  split; [exact Hllm|].
  edestruct (Hrest eq_refl) as (_ & _ & Hshown);
    [reflexivity | reflexivity | reflexivity |].
  exact (proj1 (Hshown _ eq_refl)).
Defined.



(** A batch with a file that cannot be read: the upload is reported as
    complete and no entry of the run names the file. *)
Lemma failed_file_not_reported :
  ~ partial_failure_reported Bench.extract Bench.split Bench.key_accepted
      Bench.similarity Bench.complete 3 Bench.env
      (Bench.uploads [Bench.cv; Bench.scan; Bench.posting]) Bench.fresh.
Proof.
  intros Hclaim.
  destruct (Hclaim Bench.scan (ExtractionError "scan.pdf")) as [_ Hreported].
  - simpl. auto.
  - reflexivity.
  - vm_compute in Hreported. discriminate Hreported.
Qed.

Lemma partial_failure_in_page_witness :
  upload_gate Bench.env (Bench.uploads [Bench.cv; Bench.scan; Bench.posting])
  = true
  /\ Bench.key_accepted (apikey (secrets Bench.env)) = true
  /\ completed
       (trace (Bench.run (Bench.uploads [Bench.cv; Bench.scan; Bench.posting])
                 Bench.fresh))
     = true.
Proof.
  split; [reflexivity|]. split; [reflexivity|].
  exact (proj1 (proj1 (partial_failure_in_page Bench.extract Bench.split
                         Bench.key_accepted Bench.similarity Bench.complete 3
                         Bench.env)
                  (Bench.uploads [Bench.cv; Bench.scan; Bench.posting])
                  Bench.fresh eq_refl eq_refl)).
Defined.


Lemma usage_counter_monotone_witness :
  exists l1 v2,
    @ingests _ _ Bench.loader Bench.vector_db Bench.env
      (Bench.uploads [Bench.cv; Bench.posting]) Bench.fresh l1 v2
    /\ counter (Bench.run (Bench.uploads [Bench.cv; Bench.posting]) Bench.fresh)
       = (counter Bench.fresh
          + Z.of_nat (length (@InfoLoader.document_names _ Bench.loader l1)))%Z.
Proof.
  assert (Hin : exists l1 v2,
            @ingests _ _ Bench.loader Bench.vector_db Bench.env
              (Bench.uploads [Bench.cv; Bench.posting]) Bench.fresh l1 v2).
  { eexists _, _. unfold ingests. split; [reflexivity|].
    eexists. split; [reflexivity|]. split; reflexivity. }
  destruct Hin as (l1 & v2 & Hin).
  exists l1, v2. split; [exact Hin|].
  exact (proj1 (proj2 (proj2
           (@usage_counter_monotone _ _ Bench.loader Bench.vector_db Bench.env
              (Bench.uploads [Bench.cv; Bench.posting]) Bench.fresh)))
           l1 v2 Hin).
Defined.

(** A file with another extension stops at the upload widget: no call of
    the Chunker gets it. *)
Lemma unsupported_file_stops_at_widget :
  allowed Bench.brief = false
  /\ upload_gate Bench.env (Bench.uploads [Bench.brief; Bench.cv]) = true
  /\ ~ @reaches_chunker _ _ Bench.loader Bench.vector_db Bench.env
         (Bench.uploads [Bench.brief; Bench.cv]) Bench.fresh Bench.brief.
Proof.
  split; [reflexivity|]. split; [reflexivity|].
  intros (files & Hcall & Hin).
  vm_compute in Hcall.
  repeat (destruct Hcall as [Hcall|Hcall]; [try discriminate Hcall|]);
    [|contradiction].
  inversion Hcall; subst files.
  destruct Hin as [Hin|[]]. discriminate Hin.
Qed.

Lemma extensions_checked_by_widget_witness :
  In (Invoke (GetChunks [Bench.cv]))
    (trace (Bench.run (Bench.uploads [Bench.brief; Bench.cv]) Bench.fresh))
  /\ In Bench.cv [Bench.cv]
  /\ In Bench.cv (files_picked (Bench.uploads [Bench.brief; Bench.cv]))
  /\ allowed Bench.cv = true.
Proof.
  split; [vm_compute; pick_member|]. split; [simpl; auto|].
  apply (proj1 (proj2
           (@extensions_checked_by_widget _ _ Bench.loader Bench.vector_db
              Bench.env (Bench.uploads [Bench.brief; Bench.cv]) Bench.fresh))
           [Bench.cv] Bench.cv).
  - vm_compute. pick_member.
  - simpl. auto.
Defined.

Lemma query_errors_surface_witness :
  In (LogError "Exception during Querying" RateLimitError)
    (trace (Bench.run_throttled (Bench.submits None) Bench.fresh))
  /\ In (StError "Error occured, unable to process response!")
       (trace (Bench.run_throttled (Bench.submits None) Bench.fresh))
  /\ ~ In (StInfo "Anschreiben:")
         (trace (Bench.run_throttled (Bench.submits None) Bench.fresh)).
Proof.
  split; [vm_compute; pick_member|].
  apply (proj1
           (@query_errors_surface _ _ (Pipeline.loader Bench.extract Bench.split)
              (Pipeline.vector_db Bench.key_accepted Bench.similarity
                 Bench.throttled 3)
              Bench.env (Bench.submits None) Bench.fresh)
           RateLimitError).
  vm_compute. pick_member.
Defined.

Lemma ingestion_gated_witness :
  (upload_pressed (Bench.intrudes [Bench.cv]) = false
   \/ uploaded_files (Bench.intrudes [Bench.cv]) = []
   \/ password_typed (Bench.intrudes [Bench.cv]) <> password (secrets Bench.env))
  /\ counter (Bench.run (Bench.intrudes [Bench.cv]) Bench.fresh)
     = counter Bench.fresh
  /\ the_vector_db (Bench.run (Bench.intrudes [Bench.cv]) Bench.fresh)
     = Some (Pipeline.mkStore None [] [] None None).
Proof.
  assert (Hwrong : upload_pressed (Bench.intrudes [Bench.cv]) = false
                   \/ uploaded_files (Bench.intrudes [Bench.cv]) = []
                   \/ password_typed (Bench.intrudes [Bench.cv])
                      <> password (secrets Bench.env)).
  { right. right. simpl. discriminate. }
  split; [exact Hwrong|].
  destruct (proj2 (@ingestion_gated _ _ Bench.loader Bench.vector_db Bench.env
                     (Bench.intrudes [Bench.cv]) Bench.fresh) Hwrong)
    as (Hcounter & _ & _ & _ & Hdatabase).
  split; [exact Hcounter|].
  exact (Hdatabase eq_refl).
Defined.

(** * More about the page, whatever the collaborators do *)

Section PageMore.

Context {L V : Type} {IL : InfoLoader.t L} {VD : VectorDB.t V}.
Variable env : Environment.

Ltac in_cases H :=
  repeat (simpl in H; destruct H as [H|H]); try discriminate H; try contradiction.

Lemma start_objects_config (w : World L V) :
  start_objects env w
  = match resources w with
    | Some lv => lv
    | None => (InfoLoader.new (session_config env (session_state w)),
               VectorDB.new (session_config env (session_state w)))
    end.
Proof. reflexivity. Qed.

(** The head of [main], exactly. *)
Lemma load_exact (w : World L V) :
  load env w
  = (Returned tt,
     mkWorld
       (mkSessionState (Some (session_config env (session_state w)))
          (Some (counter w)) (Some (apikey (secrets env))))
       (handlers_after (session_config env (session_state w)) (handlers w))
       (Some (start_objects env w))
       (trace w ++ SetPageConfig "Bewerbungsbot "
        :: logging_entries_of (session_config env (session_state w)) (handlers w))).
Proof.
  destruct w as [[cfg usage host] hs res t].
  unfold load, initialize_session_state, get_resources, configure_logging,
    add_handler, counter, when, bind, say, read_session, write_session, ret,
    start_objects, session_config, handlers_after, logging_entries_of,
    first_handler; simpl.
  destruct cfg as [c|]; destruct usage as [n|]; simpl.
  all: match goal with
       | |- context [local ?c] => destruct (local c)
       end; simpl.
  all: destruct hs as [|h hs]; simpl.
  all: destruct res as [[l v]|]; simpl.
  all: repeat (rewrite <- app_assoc; simpl); try rewrite app_nil_r; reflexivity.
Qed.

(** A run of the page, exactly: the session, the handlers, the objects
    and the entries it leaves. *)
Lemma script_run_exact (i : Interaction) (w : World L V) :
  exists t1 l1 v1 n1 t2 v2,
    main env i (mkWorld (session_state w) (handlers w) (resources w) [])
    = (Returned tt,
       mkWorld
         (mkSessionState (Some (session_config env (session_state w)))
            (Some n1) (Some (apikey (secrets env))))
         (handlers_after (session_config env (session_state w)) (handlers w))
         (Some (l1, v2))
         (SetPageConfig "Bewerbungsbot "
          :: logging_entries_of (session_config env (session_state w)) (handlers w)
          ++ t1
          ++ StMarkdown "## :rocket: Willkommen zu deinem Bewerbungs-Assistenten"
          :: info_entries (apikey (secrets env)) (VectorDB.document_names v1)
          ++ t2))
    /\ sidebar_step env i (fst (start_objects env w)) (snd (start_objects env w))
         (counter w) t1 l1 v1 n1
    /\ form_step env i v1 t2 v2.
Proof.
  unfold main. unfold bind at 1. rewrite load_exact. cbn [trace handlers session_state].
  rewrite app_nil_l.
  change (start_objects env (mkWorld (session_state w) (handlers w) (resources w) []))
    with (start_objects env w).
  change (counter (mkWorld (session_state w) (handlers w) (resources w) []))
    with (counter w).
  destruct (start_objects env w) as [l v] eqn:Hstart. cbn [fst snd].
  set (c := session_config env (session_state w)).
  destruct (sidebar_sound env i c (counter w) (handlers_after c (handlers w)) l v
              (SetPageConfig "Bewerbungsbot " :: logging_entries_of c (handlers w)))
    as (t1 & l1 & v1 & n1 & Hside & Hstep1).
  unfold bind at 1. rewrite Hside. cbn [fst snd].
  unfold bind at 1. unfold say at 1. cbn [trace handlers session_state resources].
  unfold bind at 1. rewrite info_bar_sound.
  match goal with
  | |- context [form _ _ _ (mkWorld ?s ?hs (Some (?a, ?b)) ?t)] =>
      destruct (form_sound env i s hs a b t) as (t2 & v2 & Hform & Hstep2)
  end.
  rewrite Hform.
  exists t1, l1, v1, n1, t2, v2. split; [|split; assumption].
  do 2 f_equal. repeat (rewrite <- app_assoc; simpl). reflexivity.
Qed.

Lemma run_exact (i : Interaction) (w : World L V) :
  exists t1 l1 v1 n1 t2 v2,
    script_run env i w
    = mkWorld
        (mkSessionState (Some (session_config env (session_state w)))
           (Some n1) (Some (apikey (secrets env))))
        (handlers_after (session_config env (session_state w)) (handlers w))
        (Some (l1, v2))
        (SetPageConfig "Bewerbungsbot "
         :: logging_entries_of (session_config env (session_state w)) (handlers w)
         ++ t1
         ++ StMarkdown "## :rocket: Willkommen zu deinem Bewerbungs-Assistenten"
         :: info_entries (apikey (secrets env)) (VectorDB.document_names v1)
         ++ t2)
    /\ sidebar_step env i (fst (start_objects env w)) (snd (start_objects env w))
         (counter w) t1 l1 v1 n1
    /\ form_step env i v1 t2 v2.
Proof.
  destruct (script_run_exact i w)
    as (t1 & l1 & v1 & n1 & t2 & v2 & Hrun & Hside & Hform).
  exists t1, l1, v1, n1, t2, v2. split; [|split; assumption].
  unfold script_run. now rewrite Hrun.
Qed.

(** A run without an upload, exactly. *)
Lemma run_without_upload (i : Interaction) (w : World L V) :
  upload_gate env i = false ->
  exists t2 v2,
    script_run env i w
    = mkWorld
        (mkSessionState (Some (session_config env (session_state w)))
           (Some (counter w)) (Some (apikey (secrets env))))
        (handlers_after (session_config env (session_state w)) (handlers w))
        (Some (fst (start_objects env w), v2))
        (SetPageConfig "Bewerbungsbot "
         :: logging_entries_of (session_config env (session_state w)) (handlers w)
         ++ []
         ++ StMarkdown "## :rocket: Willkommen zu deinem Bewerbungs-Assistenten"
         :: info_entries (apikey (secrets env))
              (VectorDB.document_names (snd (start_objects env w)))
         ++ t2)
    /\ form_step env i (snd (start_objects env w)) t2 v2.
Proof.
  intros Hclosed.
  destruct (run_exact i w) as (t1 & l1 & v1 & n1 & t2 & v2 & Hrun & Hside & Hform).
  inversion Hside as [? ? ? _|? ? ? ? ? ? ? Hgate _]; subst; [|congruence].
  exists t2, v2. split; [exact Hrun|exact Hform].
Qed.

Lemma logging_entries_of_in (c : Config) (hs : list Handler) (x : Entry) :
  In x (logging_entries_of c hs) ->
  hs = [] /\ exists text, x = LogInfo text NoValue.
Proof.
  unfold logging_entries_of. destruct hs; [|contradiction].
  intros [<-|[]]. eauto.
Qed.

Lemma key_warning_in (key : string) (x : Entry) :
  In x (key_warning key) ->
  startswith key "sk-" = false
  /\ x = StWarning (if key =? "NA"
                    then "Host key currently not available, please use your own OpenAI API key!"
                    else "Please enter your OpenAI API key!").
Proof.
  unfold key_warning. destruct (startswith key "sk-"); simpl; [contradiction|].
  intros [<-|[]]. auto.
Qed.

Lemma info_entries_in_cases (key : string) (names : list string) (x : Entry) :
  In x (info_entries key names) ->
  x = StInfo ("Hochgeladene Dokumente: " ++ newline ++ newline ++ " "
              ++ doc_name_display names)
  \/ (x = StWrite "Enter your API key on the sidebar to begin"
      /\ (startswith key "sk-" = false \/ key = "NA")).
Proof.
  unfold info_entries. intros [<-|Hin]; [auto|].
  destruct (negb (startswith key "sk-") || (key =? "NA")) eqn:Hkey;
    [|contradiction].
  destruct Hin as [<-|[]]. right. split; [reflexivity|].
  apply orb_true_iff in Hkey. destruct Hkey as [Hkey|Hkey].
  - left. now apply negb_true_iff.
  - right. now apply String.eqb_eq.
Qed.

(** The key [NA] is not a key of the provider. *)
Lemma provider_key_not_na (key : string) :
  startswith key "sk-" = true -> (key =? "NA") = false.
Proof.
  intros Hkey. apply String.eqb_neq. intros ->. discriminate Hkey.
Qed.

(** The three calls decide what the query of a step does. *)
Lemma querying_outcome (key : string) (temperature : Q)
    (prompt_mode source asked : string) (v : V) (t : list Entry)
    (r : option Response) (v' : V) :
  querying key temperature prompt_mode source asked v t r v' ->
  (forall e v1,
     VectorDB.create_llm key temperature v = (Raised e, v1) ->
     t = [Invoke (CreateLlm key temperature);
          LogError "Exception during Querying" e;
          StError "Error occured, unable to process response!"]
     /\ r = None /\ v' = v1)
  /\ (forall v1 e v2,
        VectorDB.create_llm key temperature v = (Returned tt, v1) ->
        VectorDB.create_chain prompt_mode source v1 = (Raised e, v2) ->
        t = [Invoke (CreateLlm key temperature);
             Invoke (CreateChain prompt_mode source);
             LogError "Exception during Querying" e;
             StError "Error occured, unable to process response!"]
        /\ r = None /\ v' = v2)
  /\ (forall v1 v2 e v3,
        VectorDB.create_llm key temperature v = (Returned tt, v1) ->
        VectorDB.create_chain prompt_mode source v1 = (Returned tt, v2) ->
        VectorDB.get_response asked v2 = (Raised e, v3) ->
        t = [Invoke (CreateLlm key temperature);
             Invoke (CreateChain prompt_mode source);
             Invoke (GetResponse asked);
             LogError "Exception during Querying" e;
             StError "Error occured, unable to process response!"]
        /\ r = None /\ v' = v3)
  /\ (forall v1 v2 r' v3,
        VectorDB.create_llm key temperature v = (Returned tt, v1) ->
        VectorDB.create_chain prompt_mode source v1 = (Returned tt, v2) ->
        VectorDB.get_response asked v2 = (Returned r', v3) ->
        t = [Invoke (CreateLlm key temperature);
             Invoke (CreateChain prompt_mode source);
             Invoke (GetResponse asked)]
        /\ r = r' /\ v' = v3).
Proof.
  intros [? ? ? G1|? ? ? ? G1 G2|? ? ? ? ? G1 G2 G3|? ? ? ? ? G1 G2 G3].
  - repeat split; intros; try congruence.
  - repeat split; intros; try congruence;
      match goal with
      | H : VectorDB.create_llm _ _ _ = (Returned tt, _) |- _ =>
          rewrite G1 in H; inversion H; subst; congruence
      end.
  - repeat split; intros; try congruence;
      match goal with
      | H : VectorDB.create_llm _ _ _ = (Returned tt, _) |- _ =>
          rewrite G1 in H; inversion H; subst
      end; try congruence;
      match goal with
      | H : VectorDB.create_chain _ _ _ = (Returned tt, _) |- _ =>
          rewrite G2 in H; inversion H; subst; congruence
      end.
  - repeat split; intros; try congruence;
      match goal with
      | H : VectorDB.create_llm _ _ _ = (Returned tt, _) |- _ =>
          rewrite G1 in H; inversion H; subst
      end; try congruence;
      match goal with
      | H : VectorDB.create_chain _ _ _ = (Returned tt, _) |- _ =>
          rewrite G2 in H; inversion H; subst; congruence
      end.
Qed.

(** ** The properties *)

(** X1: the two [try] blocks catch whatever the six methods of the
    collaborators raise, and [main] reads no key of the session and no
    cached object before the head of [main] has set it.  The model takes
    as given that [config.yml] loads and has the key [local], that the
    secrets hold [apikey] and [password], that the two constructors return,
    that the attributes and a truthy result have the types of the two
    interfaces, and that the calls of Streamlit and of the logger return.
    Granted these, no exception leaves a run, whatever the six methods
    raise and whatever the session held; after the run the session has its
    config, a usage counter and the key of the host, the two objects exist
    and the root logger has a handler. *)
Theorem run_returns_initialized (i : Interaction) (w : World L V) :
  fst (main env i (mkWorld (session_state w) (handlers w) (resources w) []))
  = Returned tt
  /\ config (session_state (script_run env i w))
     = Some (session_config env (session_state w))
  /\ (exists n, usage_counter (session_state (script_run env i w)) = Some n)
  /\ openai_api_key_host (session_state (script_run env i w))
     = Some (apikey (secrets env))
  /\ (exists l v, resources (script_run env i w) = Some (l, v))
  /\ handlers (script_run env i w) <> [].
Proof.
  destruct (script_run_exact i w)
    as (t1 & l1 & v1 & n1 & t2 & v2 & Hrun & _ & _).
  unfold script_run. rewrite Hrun. cbn.
  repeat split; eauto.
  unfold handlers_after. destruct (handlers w); discriminate.
Qed.

(** X4: the loader and the vector database are made once and shared.  A
    run that finds them, in whatever session, and neither uploads nor
    submits leaves them as they are; a run that finds none makes them from
    the config of the session; and without an upload the info bar shows the
    document names of the database the run found. *)
Theorem objects_made_once (i : Interaction) (w : World L V) :
  upload_gate env i = false ->
  (submit_gate env i = false ->
   (forall l v, resources w = Some (l, v) ->
                resources (script_run env i w) = Some (l, v))
   /\ (resources w = None ->
       resources (script_run env i w)
       = Some (InfoLoader.new (session_config env (session_state w)),
               VectorDB.new (session_config env (session_state w)))))
  /\ In (StInfo ("Hochgeladene Dokumente: " ++ newline ++ newline ++ " "
                 ++ doc_name_display
                      (VectorDB.document_names (snd (start_objects env w)))))
       (trace (script_run env i w)).
Proof.
  intros Hclosed.
  destruct (run_without_upload i w Hclosed) as (t2 & v2 & Hrun & Hform).
  rewrite Hrun. cbn [resources trace]. split.
  - intros Hquiet.
    inversion Hform as [? _|? ? ? ? Hgate _]; subst; [|congruence].
    rewrite start_objects_config.
    split; [intros l v ->; reflexivity|intros ->; reflexivity].
  - apply page_trace_in. do 4 right. left. unfold info_entries. left. reflexivity.
Qed.

(** X6: a query needs a key of the provider.  When the key of the host
    does not start with [sk-], no run calls [create_llm], [create_chain] or
    [get_response], also with the submit button pressed; the run writes the
    hint about the key and warns, with the text for the key [NA] or the
    text for any other key; it shows no answer and no error.  When the key
    starts with [sk-], the run writes no hint and no warning: the test on
    [NA] adds nothing to the test on [sk-]. *)
Theorem query_needs_provider_key (i : Interaction) (w : World L V) :
  (startswith (apikey (secrets env)) "sk-" = false ->
   (forall c, In (Invoke c) (trace (script_run env i w)) -> is_ingestion c = true)
   /\ In (StWrite "Enter your API key on the sidebar to begin")
        (trace (script_run env i w))
   /\ In (StWarning
            (if apikey (secrets env) =? "NA"
             then "Host key currently not available, please use your own OpenAI API key!"
             else "Please enter your OpenAI API key!"))
        (trace (script_run env i w))
   /\ ~ In (StInfo "Anschreiben:") (trace (script_run env i w))
   /\ (forall text, ~ In (StError text) (trace (script_run env i w))))
  /\ (startswith (apikey (secrets env)) "sk-" = true ->
      ~ In (StWrite "Enter your API key on the sidebar to begin")
          (trace (script_run env i w))
      /\ (forall text, ~ In (StWarning text) (trace (script_run env i w)))).
Proof.
  destruct (run_exact i w) as (t1 & l1 & v1 & n1 & t2 & v2 & Hrun & Hside & Hform).
  rewrite Hrun. cbn [trace].
  assert (Hup : forall x, In x t1 ->
            (forall text, x <> StInfo text) /\ (forall text, x <> StError text)
            /\ (forall text, x <> StWarning text)
            /\ x <> StWrite "Enter your API key on the sidebar to begin"
            /\ (forall c, x = Invoke c -> is_ingestion c = true)).
  { intros x Hin.
    inversion Hside as [? ? ? _|? ? ? ? ? ? ? _ Hup]; subst; [contradiction|].
    destruct Hup; in_cases Hin; subst x; repeat split; intros; try discriminate;
      match goal with H : Invoke _ = Invoke _ |- _ => inversion H; reflexivity end. }
  split.
  - intros Hkey.
    assert (Hgate : submit_gate env i = false).
    { unfold submit_gate. rewrite Hkey. apply andb_false_r. }
    inversion Hform as [? _|? ? ? ? Hopen _]; subst; [|congruence].
    assert (Hwarn : key_warning (apikey (secrets env))
                    = [StWarning
                         (if apikey (secrets env) =? "NA"
                          then "Host key currently not available, please use your own OpenAI API key!"
                          else "Please enter your OpenAI API key!")]).
    { unfold key_warning. now rewrite Hkey. }
    rewrite Hwarn.
    split; [|split; [|split; [|split]]].
    + intros c Hin. apply page_trace_in in Hin.
      destruct Hin as [H|[H|[H|[H|[H|H]]]]]; try discriminate H.
      * apply logging_entries_of_in in H. destruct H as (_ & text & H).
        discriminate H.
      * now apply (Hup _ H).
      * apply info_entries_in_cases in H. destruct H as [H|[H _]]; discriminate H.
      * in_cases H.
    + apply page_trace_in. do 4 right. left. unfold info_entries.
      rewrite Hkey. simpl. auto.
    + apply page_trace_in. do 5 right. simpl. auto.
    + intros Hin. apply page_trace_in in Hin.
      destruct Hin as [H|[H|[H|[H|[H|H]]]]]; try discriminate H.
      * apply logging_entries_of_in in H. destruct H as (_ & text & H).
        discriminate H.
      * now destruct (proj1 (Hup _ H) "Anschreiben:").
      * apply info_entries_in_cases in H. destruct H as [H|[H _]];
          [|discriminate H]. simpl in H. discriminate H.
      * in_cases H.
    + intros text Hin. apply page_trace_in in Hin.
      destruct Hin as [H|[H|[H|[H|[H|H]]]]]; try discriminate H.
      * apply logging_entries_of_in in H. destruct H as (_ & x & H).
        discriminate H.
      * now destruct (proj1 (proj2 (Hup _ H)) text).
      * apply info_entries_in_cases in H. destruct H as [H|[H _]]; discriminate H.
      * in_cases H.
  - intros Hkey.
    assert (Hform2 : forall x, In x t2 ->
              (forall text, x <> StWarning text)
              /\ x <> StWrite "Enter your API key on the sidebar to begin").
    { intros x Hin.
      assert (Hwarn : key_warning (apikey (secrets env)) = []).
      { unfold key_warning. now rewrite Hkey. }
      inversion Hform as [? _|? tq r ? _ Hquery]; subst; rewrite Hwarn in Hin;
        [contradiction|].
      apply in_inv in Hin. destruct Hin as [<-|Hin];
        [split; intros; discriminate|].
      apply in_app_or in Hin. destruct Hin as [Hin|Hin].
      - destruct Hquery; in_cases Hin; subst x; split; intros; discriminate.
      - destruct r; in_cases Hin; subst x; split; intros; discriminate. }
    split.
    + intros Hin. apply page_trace_in in Hin.
      destruct Hin as [H|[H|[H|[H|[H|H]]]]]; try discriminate H.
      * apply logging_entries_of_in in H. destruct H as (_ & text & H).
        discriminate H.
      * now destruct (proj1 (proj2 (proj2 (proj2 (Hup _ H))))).
      * apply info_entries_in_cases in H.
        destruct H as [H|[_ [H|H]]]; [discriminate H|congruence|].
        rewrite H in Hkey. discriminate Hkey.
      * now destruct (proj2 (Hform2 _ H)).
    + intros text Hin. apply page_trace_in in Hin.
      destruct Hin as [H|[H|[H|[H|[H|H]]]]]; try discriminate H.
      * apply logging_entries_of_in in H. destruct H as (_ & x & H).
        discriminate H.
      * now destruct (proj1 (proj2 (proj2 (Hup _ H))) text).
      * apply info_entries_in_cases in H. destruct H as [H|[H _]]; discriminate H.
      * now destruct (proj1 (Hform2 _ H) text).
Qed.

Lemma form_step_no_status (i : Interaction) (v : V) (t : list Entry) (v1 : V) :
  form_step env i v t v1 -> filter is_status_update t = [].
Proof.
  assert (Hwarn : forall key, filter is_status_update (key_warning key) = []).
  { intros key. unfold key_warning.
    destruct (negb (startswith key "sk-")); reflexivity. }
  intros [? _|? ? r ? _ Hquery]; [apply Hwarn|].
  rewrite filter_app, Hwarn. cbn [filter is_status_update app].
  rewrite filter_app.
  replace (filter is_status_update (shown r)) with (@nil Entry)
    by (destruct r; reflexivity).
  destruct Hquery; reflexivity.
Qed.

(** X7: a run ends its upload with one status, and only an upload has one:
    the trace of a run holds exactly one status update when the gate of the
    upload is open, whether the upload went through or raised, and none
    when the gate is closed. *)
Theorem one_status_per_upload (i : Interaction) (w : World L V) :
  length (filter is_status_update (trace (script_run env i w)))
  = (if upload_gate env i then 1 else 0)%nat.
Proof.
  destruct (run_exact i w) as (t1 & l1 & v1 & n1 & t2 & v2 & Hrun & Hside & Hform).
  rewrite Hrun. cbn [trace].
  change (SetPageConfig "Bewerbungsbot " :: ?y)
    with ([SetPageConfig "Bewerbungsbot "] ++ y).
  change (StMarkdown ?m :: ?y) with ([StMarkdown m] ++ y).
  rewrite !filter_app, (form_step_no_status _ _ _ _ Hform).
  replace (filter is_status_update
             (logging_entries_of (session_config env (session_state w))
                (handlers w)))
    with (@nil Entry)
    by (unfold logging_entries_of; destruct (handlers w); reflexivity).
  replace (filter is_status_update
             (info_entries (apikey (secrets env)) (VectorDB.document_names v1)))
    with (@nil Entry)
    by (unfold info_entries;
        destruct (negb (startswith (apikey (secrets env)) "sk-")
                  || (apikey (secrets env) =? "NA")); reflexivity).
  cbn [filter is_status_update app]. rewrite app_nil_r.
  inversion Hside as [? ? ? Hgate|? ? ? ? ? ? ? Hgate Hup]; subst; rewrite Hgate.
  - reflexivity.
  - destruct Hup; reflexivity.
Qed.

(** The calls behind the chunking decide how an upload ends that fails
    there. *)
Lemma uploading_failed (key : string) (files : list UploadedFile)
    (l : L) (v : V) (n : Z) (t : list Entry) (l' : L) (v' : V) (n' : Z) (l1 : L) :
  uploading key files l v n t l' v' n' ->
  InfoLoader.get_chunks files l = (Returned tt, l1) ->
  (forall e v1,
     VectorDB.create_embedding_function key v = (Raised e, v1) ->
     In (LogError "Exception during Splitting / embedding" e) t
     /\ In (StatusUpdate "Error occured." "error") t
     /\ l' = l1 /\ v' = v1 /\ n' = n)
  /\ (forall v0 e v1,
        VectorDB.create_embedding_function key v = (Returned tt, v0) ->
        VectorDB.initialize_database (InfoLoader.document_chunks_full l1)
          (InfoLoader.document_names l1) v0 = (Raised e, v1) ->
        In (LogError "Exception during Splitting / embedding" e) t
        /\ In (StatusUpdate "Error occured." "error") t
        /\ l' = l1 /\ v' = v1 /\ n' = n).
Proof.
  intros [? ? ? ? ? G1|? ? ? ? ? ? G1 G2|? ? ? ? ? ? ? G1 G2 G3
         |? ? ? ? ? ? G1 G2 G3] Hchunks.
  - congruence.
  - rewrite Hchunks in G1. inversion G1; subst. split.
    + intros e' vb H. rewrite G2 in H. inversion H; subst. simpl. auto 10.
    + intros; congruence.
  - rewrite Hchunks in G1. inversion G1; subst. split.
    + intros; congruence.
    + intros va e' vb H2 H3. rewrite G2 in H2. inversion H2; subst.
      rewrite G3 in H3. inversion H3; subst. simpl. auto 12.
  - rewrite Hchunks in G1. inversion G1; subst. split.
    + intros; congruence.
    + intros va e' vb H2 H3. rewrite G2 in H2. inversion H2; subst. congruence.
Qed.

(** X8: the page does not roll back an upload that fails behind the
    chunking.  When [get_chunks] has returned and [create_embedding_function]
    or [initialize_database] raises, the run keeps the loader after the
    chunking of the new batch, leaves the counter, logs the exception with
    the status of the error, and leaves the vector database as the failing
    call left it; the info bar shows the names of that database, not the
    names of the loader. *)
Theorem failed_upload_keeps_chunks (i : Interaction) (w : World L V) (l1 : L) :
  upload_gate env i = true ->
  InfoLoader.get_chunks (uploaded_files i) (fst (start_objects env w))
  = (Returned tt, l1) ->
  forall e v1,
    (VectorDB.create_embedding_function (apikey (secrets env))
       (snd (start_objects env w)) = (Raised e, v1)
     \/ exists v0,
          VectorDB.create_embedding_function (apikey (secrets env))
            (snd (start_objects env w)) = (Returned tt, v0)
          /\ VectorDB.initialize_database (InfoLoader.document_chunks_full l1)
               (InfoLoader.document_names l1) v0 = (Raised e, v1)) ->
    the_loader (script_run env i w) = Some l1
    /\ counter (script_run env i w) = counter w
    /\ In (LogError "Exception during Splitting / embedding" e)
         (trace (script_run env i w))
    /\ In (StatusUpdate "Error occured." "error") (trace (script_run env i w))
    /\ In (StInfo ("Hochgeladene Dokumente: " ++ newline ++ newline ++ " "
                   ++ doc_name_display (VectorDB.document_names v1)))
         (trace (script_run env i w))
    /\ (submit_gate env i = false -> the_vector_db (script_run env i w) = Some v1).
Proof.
  intros Hgate Hchunks e v1 Hfail.
  destruct (run_exact i w) as (t1 & l2 & v2 & n1 & t2 & v3 & Hrun & Hside & Hform).
  rewrite Hrun. unfold the_loader, the_vector_db, counter at 1.
  cbn [trace resources session_state usage_counter option_map fst snd].
  inversion Hside as [? ? ? Hclosed|? ? ? ? ? ? ? _ Hup]; subst; [congruence|].
  assert (Hshape : l2 = l1 /\ v2 = v1 /\ n1 = counter w
                   /\ In (LogError "Exception during Splitting / embedding" e) t1
                   /\ In (StatusUpdate "Error occured." "error") t1).
  { destruct (uploading_failed _ _ _ _ _ _ _ _ _ _ Hup Hchunks) as [Hembed Hinit].
    destruct Hfail as [H|(v0 & H2 & H3)].
    - destruct (Hembed _ _ H) as (? & ? & ? & ? & ?). auto.
    - destruct (Hinit _ _ _ H2 H3) as (? & ? & ? & ? & ?). auto. }
  destruct Hshape as (-> & -> & -> & Hlog & Hstatus).
  split; [reflexivity|]. split; [reflexivity|].
  split; [apply page_trace_in; auto|]. split; [apply page_trace_in; auto|].
  split.
  - apply page_trace_in. do 4 right. left. unfold info_entries. left. reflexivity.
  - intros Hquiet.
    inversion Hform as [? _|? ? ? ? Hopen _]; subst; [reflexivity|congruence].
Qed.

(** X9: a falsy result is shown as nothing.  In a run without an upload,
    when the three calls of the query return and [get_response] returns a
    falsy value, the question was asked and the run shows no answer and no
    error message and logs no exception. *)
Theorem falsy_result_shows_nothing (i : Interaction) (w : World L V)
    (v1 v2 v3 : V) :
  upload_gate env i = false ->
  submit_gate env i = true ->
  VectorDB.create_llm (apikey (secrets env)) (temperature_of i)
    (snd (start_objects env w)) = (Returned tt, v1) ->
  VectorDB.create_chain "Unrestricted" "Uploaded documents" v1 = (Returned tt, v2) ->
  VectorDB.get_response (question_of i) v2 = (Returned None, v3) ->
  In (Invoke (GetResponse (question_of i))) (trace (script_run env i w))
  /\ ~ In (StInfo "Anschreiben:") (trace (script_run env i w))
  /\ (forall text, ~ In (StError text) (trace (script_run env i w)))
  /\ (forall text e, ~ In (LogError text e) (trace (script_run env i w)))
  /\ the_vector_db (script_run env i w) = Some v3.
Proof.
  intros Hclosed Hopen H1 H2 H3.
  destruct (run_without_upload i w Hclosed) as (t2 & v' & Hrun & Hform).
  rewrite Hrun. unfold the_vector_db. cbn [trace resources option_map snd].
  inversion Hform as [? Hgate|? tq r ? _ Hquery]; subst; [congruence|].
  destruct (querying_outcome _ _ _ _ _ _ _ _ _ Hquery) as (_ & _ & _ & Hreturned).
  destruct (Hreturned _ _ _ _ H1 H2 H3) as (-> & -> & ->).
  assert (Hkey : key_warning (apikey (secrets env)) = []).
  { unfold key_warning. unfold submit_gate in Hopen.
    apply andb_true_iff in Hopen. destruct Hopen as [_ ->]. reflexivity. }
  rewrite Hkey.
  split; [apply page_trace_in; do 5 right; simpl; auto|].
  assert (Hall : forall x,
            In x (SetPageConfig "Bewerbungsbot "
                  :: logging_entries_of (session_config env (session_state w))
                       (handlers w)
                  ++ []
                  ++ StMarkdown "## :rocket: Willkommen zu deinem Bewerbungs-Assistenten"
                  :: info_entries (apikey (secrets env))
                       (VectorDB.document_names (snd (start_objects env w)))
                  ++ [] ++ StSpinner "Lade..."
                  :: [Invoke (CreateLlm (apikey (secrets env)) (temperature_of i));
                      Invoke (CreateChain "Unrestricted" "Uploaded documents");
                      Invoke (GetResponse (question_of i))] ++ shown None) ->
            x <> StInfo "Anschreiben:"
            /\ (forall text, x <> StError text)
            /\ (forall text e, x <> LogError text e)).
  { intros x Hin. apply page_trace_in in Hin.
    destruct Hin as [H|[H|[H|[H|[H|H]]]]].
    - subst x. repeat split; intros; discriminate.
    - apply logging_entries_of_in in H. destruct H as (_ & text & ->).
      repeat split; intros; discriminate.
    - contradiction.
    - subst x. repeat split; intros; discriminate.
    - apply info_entries_in_cases in H. destruct H as [->|[-> _]];
        repeat split; intros; discriminate.
    - in_cases H; subst x; repeat split; intros; discriminate. }
  split; [intros Hin; now destruct (proj1 (Hall _ Hin))|].
  split; [intros text Hin; now destruct (proj1 (proj2 (Hall _ Hin)) text)|].
  split; [intros text e Hin; now destruct (proj2 (proj2 (Hall _ Hin)) text e)|].
  reflexivity.
Qed.

(** X10: the query stops at the first call that raises.  In a run without
    an upload and with the submit gate open: when [create_llm] raises,
    neither [create_chain] nor [get_response] is called; when [create_chain]
    raises, [get_response] is not called; the exception is logged, and the
    vector database is left as the call that raised left it. *)
Theorem query_stops_at_first_exception (i : Interaction) (w : World L V) :
  upload_gate env i = false ->
  submit_gate env i = true ->
  (forall e v1,
     VectorDB.create_llm (apikey (secrets env)) (temperature_of i)
       (snd (start_objects env w)) = (Raised e, v1) ->
     (forall c, In (Invoke c) (trace (script_run env i w)) ->
                c = CreateLlm (apikey (secrets env)) (temperature_of i))
     /\ In (LogError "Exception during Querying" e) (trace (script_run env i w))
     /\ the_vector_db (script_run env i w) = Some v1)
  /\ (forall v1 e v2,
        VectorDB.create_llm (apikey (secrets env)) (temperature_of i)
          (snd (start_objects env w)) = (Returned tt, v1) ->
        VectorDB.create_chain "Unrestricted" "Uploaded documents" v1
        = (Raised e, v2) ->
        (forall q, ~ In (Invoke (GetResponse q)) (trace (script_run env i w)))
        /\ In (LogError "Exception during Querying" e) (trace (script_run env i w))
        /\ the_vector_db (script_run env i w) = Some v2).
Proof.
  intros Hclosed Hopen.
  destruct (run_without_upload i w Hclosed) as (t2 & v' & Hrun & Hform).
  rewrite Hrun. unfold the_vector_db. cbn [trace resources option_map snd].
  inversion Hform as [? Hgate|? tq r ? _ Hquery]; subst; [congruence|].
  destruct (querying_outcome _ _ _ _ _ _ _ _ _ Hquery) as (Hllm & Hchain & _ & _).
  assert (Hkey : key_warning (apikey (secrets env)) = []).
  { unfold key_warning. unfold submit_gate in Hopen.
    apply andb_true_iff in Hopen. destruct Hopen as [_ ->]. reflexivity. }
  rewrite Hkey.
  assert (Hcalls : forall c tq',
            In (Invoke c)
              (SetPageConfig "Bewerbungsbot "
               :: logging_entries_of (session_config env (session_state w))
                    (handlers w)
               ++ []
               ++ StMarkdown "## :rocket: Willkommen zu deinem Bewerbungs-Assistenten"
               :: info_entries (apikey (secrets env))
                    (VectorDB.document_names (snd (start_objects env w)))
               ++ [] ++ StSpinner "Lade..." :: tq' ++ shown None) ->
            In (Invoke c) tq').
  { intros c tq' Hin. apply page_trace_in in Hin.
    destruct Hin as [H|[H|[H|[H|[H|H]]]]]; try discriminate H.
    - apply logging_entries_of_in in H. destruct H as (_ & text & H).
      discriminate H.
    - contradiction.
    - apply info_entries_in_cases in H. destruct H as [H|[H _]]; discriminate H.
    - apply in_inv in H. destruct H as [H|H]; [discriminate H|].
      simpl in H. now rewrite app_nil_r in H. }
  split.
  - intros e v1 H1. destruct (Hllm _ _ H1) as (-> & -> & ->).
    split; [|split; [|reflexivity]].
    + intros c Hin. apply Hcalls in Hin. in_cases Hin. now inversion Hin.
    + apply page_trace_in. do 5 right. simpl. auto.
  - intros v1 e v2 H1 H2. destruct (Hchain _ _ _ H1 H2) as (-> & -> & ->).
    split; [|split; [|reflexivity]].
    + intros q Hin. apply Hcalls in Hin. in_cases Hin.
    + apply page_trace_in. do 5 right. simpl. auto.
Qed.

End PageMore.

(** * One run after another *)

Section Reruns.

Context {L V : Type} {IL : InfoLoader.t L} {VD : VectorDB.t V}.
Variables env env' : Environment.

(** X2: the config of a session is loaded once and the key of the host at
    every run.  A run loads [config.yml] into a session that has no config
    and keeps the config of a session that has one; a later run of the
    session, under whatever [config.yml] and secrets the host then has,
    keeps that config and takes the key from the secrets of its own time. *)
Theorem config_loaded_once (i i' : Interaction) (w : World L V) :
  config (session_state (script_run env i w))
  = Some (session_config env (session_state w))
  /\ config (session_state (script_run env' i' (script_run env i w)))
     = config (session_state (script_run env i w))
  /\ openai_api_key_host (session_state (script_run env i w))
     = Some (apikey (secrets env))
  /\ openai_api_key_host
       (session_state (script_run env' i' (script_run env i w)))
     = Some (apikey (secrets env')).
Proof.
  destruct (run_exact env i w)
    as (t1 & l1 & v1 & n1 & t2 & v2 & Hrun & _ & _).
  destruct (run_exact env' i' (script_run env i w))
    as (t1' & l1' & v1' & n1' & t2' & v2' & Hrun' & _ & _).
  rewrite Hrun'. rewrite Hrun. cbn [session_state config openai_api_key_host].
  repeat split; reflexivity.
Qed.

(** X3: the handlers of the root logger are decided by the first run of
    the process.  A run that finds no handler adds one, the file [app.log]
    when the config of the session is local and the console otherwise; a
    run that finds handlers keeps them and logs no added handler; so no
    later run, under whatever config, changes the handlers.  The run that
    adds the handler logs it, as added file handler or as added stream
    handler. *)
Theorem logging_decided_once (i i' : Interaction) (w : World L V) :
  (handlers w = [] ->
   handlers (script_run env i w)
   = [if local (session_config env (session_state w))
      then FileHandler "app.log" else StreamHandler])
  /\ (handlers w = [] ->
      In (LogInfo (if local (session_config env (session_state w))
                   then "Added filer_handler" else "Added stream_handler")
            NoValue)
        (trace (script_run env i w)))
  /\ (handlers w <> [] -> handlers (script_run env i w) = handlers w)
  /\ (forall text,
        In (LogInfo text NoValue) (trace (script_run env i w)) ->
        handlers w = []
        /\ text = if local (session_config env (session_state w))
                  then "Added filer_handler" else "Added stream_handler")
  /\ handlers (script_run env' i' (script_run env i w))
     = handlers (script_run env i w).
Proof.
  destruct (run_exact env i w)
    as (t1 & l1 & v1 & n1 & t2 & v2 & Hrun & Hside & Hform).
  destruct (run_exact env' i' (script_run env i w))
    as (t1' & l1' & v1' & n1' & t2' & v2' & Hrun' & _ & _).
  rewrite Hrun'. rewrite Hrun. cbn [handlers trace].
  split; [intros ->; reflexivity|].
  split; [intros ->; apply page_trace_in; right; left; simpl; auto|].
  split; [intros Hsome; destruct (handlers w); [congruence|reflexivity]|].
  split.
  - intros text Hin. apply page_trace_in in Hin.
    destruct Hin as [H|[H|[H|[H|[H|H]]]]]; try discriminate H.
    + unfold logging_entries_of in H. destruct (handlers w); [|contradiction].
      destruct H as [H|[]]. inversion H. auto.
    + exfalso.
      inversion Hside as [? ? ? _|? ? ? ? ? ? ? _ Hup]; subst; [contradiction|].
      destruct Hup; repeat (destruct H as [H|H]; try discriminate H);
        contradiction.
    + exfalso. apply info_entries_in_cases in H.
      destruct H as [H|[H _]]; discriminate H.
    + exfalso.
      inversion Hform as [? _|? tq r ? _ Hquery]; subst.
      * apply key_warning_in in H. destruct H as [_ H]. discriminate H.
      * apply in_app_or in H. destruct H as [H|H];
          [apply key_warning_in in H; destruct H as [_ H]; discriminate H|].
        apply in_inv in H. destruct H as [H|H]; [discriminate H|].
        apply in_app_or in H. destruct H as [H|H].
        -- destruct Hquery; repeat (destruct H as [H|H]; try discriminate H);
             contradiction.
        -- destruct r; repeat (destruct H as [H|H]; try discriminate H);
             contradiction.
  - unfold handlers_after. destruct (handlers w); reflexivity.
Qed.

(** X11: a run with no button pressed is a refresh: run again, it leaves
    the session, the handlers and the two objects as the first run left
    them, and it shows the page and nothing else: the title, the heading,
    the info bar with the names of the database, and the hint and the
    warning about the key when the host has no key of the provider. *)
Theorem refresh_is_idempotent (i : Interaction) (w : World L V) :
  upload_gate env i = false ->
  submit_gate env i = false ->
  session_state (script_run env i (script_run env i w))
  = session_state (script_run env i w)
  /\ handlers (script_run env i (script_run env i w))
     = handlers (script_run env i w)
  /\ resources (script_run env i (script_run env i w))
     = resources (script_run env i w)
  /\ resources (script_run env i w) = Some (start_objects env w)
  /\ trace (script_run env i (script_run env i w))
     = SetPageConfig "Bewerbungsbot "
       :: StMarkdown "## :rocket: Willkommen zu deinem Bewerbungs-Assistenten"
       :: info_entries (apikey (secrets env))
            (VectorDB.document_names (snd (start_objects env w)))
       ++ key_warning (apikey (secrets env)).
Proof.
  intros Hclosed Hquiet.
  destruct (run_without_upload env i w Hclosed) as (t2 & v2 & Hrun & Hform).
  destruct (run_without_upload env i (script_run env i w) Hclosed)
    as (t2' & v2' & Hrun' & Hform').
  inversion Hform as [? _|? ? ? ? Hgate _]; subst; [|congruence].
  inversion Hform' as [? _|? ? ? ? Hgate _]; subst; [|congruence].
  rewrite Hrun'. rewrite Hrun.
  cbn [session_state handlers resources trace session_config config counter
       usage_counter start_objects fst snd].
  repeat split.
  - unfold handlers_after. destruct (handlers w); reflexivity.
  - now destruct (start_objects env w).
  - replace (logging_entries_of (session_config env (session_state w))
               (handlers_after (session_config env (session_state w)) (handlers w)))
      with (@nil Entry)
      by (unfold handlers_after; destruct (handlers w); reflexivity).
    reflexivity.
Qed.

End Reruns.

(** * The text of the info bar *)







(** * More runs on the bench *)


Lemma objects_made_once_witness :
  upload_gate Bench.env Bench.idle = false
  /\ In (StInfo ("Hochgeladene Dokumente: " ++ newline ++ newline ++ " "
                 ++ "1. cv.pdf" ++ newline ++ newline))
       (trace (Bench.run Bench.idle
                 (mkWorld (mkSessionState None None None) []
                    (resources (Bench.run (Bench.uploads [Bench.cv]) Bench.fresh))
                    []))).
Proof.
  split; [reflexivity|].
  exact (proj2 (@objects_made_once _ _ Bench.loader Bench.vector_db Bench.env
                  Bench.idle
                  (mkWorld (mkSessionState None None None) []
                     (resources (Bench.run (Bench.uploads [Bench.cv]) Bench.fresh))
                     [])
                  eq_refl)).
Defined.

Lemma query_needs_provider_key_witness :
  startswith (apikey (secrets Bench.env_without_key)) "sk-" = false
  /\ In (StWarning "Host key currently not available, please use your own OpenAI API key!")
       (trace (@script_run _ _ Bench.loader Bench.vector_db Bench.env_without_key
                 (Bench.submits None) Bench.fresh))
  /\ ~ In (StInfo "Anschreiben:")
         (trace (@script_run _ _ Bench.loader Bench.vector_db
                   Bench.env_without_key (Bench.submits None) Bench.fresh)).
Proof.
  split; [reflexivity|].
  destruct (proj1 (@query_needs_provider_key _ _ Bench.loader Bench.vector_db
                     Bench.env_without_key (Bench.submits None) Bench.fresh)
              eq_refl) as (_ & _ & Hwarning & Hanswer & _).
  split; [exact Hwarning|exact Hanswer].
Defined.

Lemma failed_upload_keeps_chunks_witness :
  upload_gate Bench.env (Bench.uploads [Bench.cv]) = true
  /\ the_loader
       (@script_run _ _ Bench.stub_loader
          (Bench.stub_database (Raised AuthenticationError) (Returned tt)
             (Returned tt) (Returned None))
          Bench.env (Bench.uploads [Bench.cv])
          (mkWorld (mkSessionState None None None) [] None []))
     = Some ["cv.pdf"]
  /\ the_vector_db
       (@script_run _ _ Bench.stub_loader
          (Bench.stub_database (Raised AuthenticationError) (Returned tt)
             (Returned tt) (Returned None))
          Bench.env (Bench.uploads [Bench.cv])
          (mkWorld (mkSessionState None None None) [] None []))
     = Some [].
Proof.
  split; [reflexivity|].
  destruct (@failed_upload_keeps_chunks _ _ Bench.stub_loader
              (Bench.stub_database (Raised AuthenticationError) (Returned tt)
                 (Returned tt) (Returned None))
              Bench.env (Bench.uploads [Bench.cv])
              (mkWorld (mkSessionState None None None) [] None [])
              ["cv.pdf"] eq_refl eq_refl AuthenticationError []
              (or_introl eq_refl))
    as (Hloader & _ & _ & _ & _ & Hdatabase).
  split; [exact Hloader|exact (Hdatabase eq_refl)].
Defined.

Lemma falsy_result_shows_nothing_witness :
  upload_gate Bench.env (Bench.submits None) = false
  /\ submit_gate Bench.env (Bench.submits None) = true
  /\ ~ In (StInfo "Anschreiben:")
         (trace (@script_run _ _ Bench.stub_loader
                   (Bench.stub_database (Returned tt) (Returned tt) (Returned tt)
                      (Returned None))
                   Bench.env (Bench.submits None)
                   (mkWorld (mkSessionState None None None) [] None []))).
Proof.
  split; [reflexivity|]. split; [reflexivity|].
  exact (proj1 (proj2
           (@falsy_result_shows_nothing _ _ Bench.stub_loader
              (Bench.stub_database (Returned tt) (Returned tt) (Returned tt)
                 (Returned None))
              Bench.env (Bench.submits None)
              (mkWorld (mkSessionState None None None) [] None [])
              [] [] [] eq_refl eq_refl eq_refl eq_refl eq_refl))).
Defined.

Lemma query_stops_at_first_exception_witness :
  upload_gate Bench.env (Bench.submits None) = false
  /\ submit_gate Bench.env (Bench.submits None) = true
  /\ forall q,
       ~ In (Invoke (GetResponse q))
           (trace (@script_run _ _ Bench.stub_loader
                     (Bench.stub_database (Returned tt) (Returned tt)
                        (Raised RateLimitError) (Returned None))
                     Bench.env (Bench.submits None)
                     (mkWorld (mkSessionState None None None) [] None []))).
Proof.
  split; [reflexivity|]. split; [reflexivity|].
  exact (proj1
           (proj2 (@query_stops_at_first_exception _ _ Bench.stub_loader
                     (Bench.stub_database (Returned tt) (Returned tt)
                        (Raised RateLimitError) (Returned None))
                     Bench.env (Bench.submits None)
                     (mkWorld (mkSessionState None None None) [] None [])
                     eq_refl eq_refl)
              [] RateLimitError [] eq_refl eq_refl)).
Defined.

Lemma logging_decided_once_witness :
  handlers Bench.fresh = []
  /\ handlers (Bench.run Bench.idle Bench.fresh) = [FileHandler "app.log"]
  /\ handlers (@script_run _ _ Bench.loader Bench.vector_db Bench.env_without_key
                 Bench.idle (Bench.run Bench.idle Bench.fresh))
     = [FileHandler "app.log"].
Proof.
  split; [reflexivity|].
  destruct (@logging_decided_once _ _ Bench.loader Bench.vector_db Bench.env
              Bench.env_without_key Bench.idle Bench.idle Bench.fresh)
    as (Hfirst & _ & _ & _ & Hlater).
  split; [exact (Hfirst eq_refl)|].
  exact (eq_trans Hlater (Hfirst eq_refl)).
Defined.

Lemma refresh_is_idempotent_witness :
  upload_gate Bench.env Bench.idle = false
  /\ submit_gate Bench.env Bench.idle = false
  /\ resources (Bench.run Bench.idle (Bench.run Bench.idle Bench.fresh))
     = resources (Bench.run Bench.idle Bench.fresh).
Proof.
  split; [reflexivity|]. split; [reflexivity|].
  exact (proj1 (proj2 (proj2
           (@refresh_is_idempotent _ _ Bench.loader Bench.vector_db Bench.env
              Bench.idle Bench.fresh eq_refl eq_refl)))).
Defined.

(** * The order of the calls *)

Section CallOrder.

Context {L V : Type} {IL : InfoLoader.t L} {VD : VectorDB.t V}.
Variable env : Environment.

Ltac pick := simpl; repeat (first [left; reflexivity | right]).





End CallOrder.


